(** * Upkie PPO balancer: the training-run orchestrator

    A shallow embedding of [agents/ppo_balancer/train.py] and the properties
    of its run-name resolution, worker spawn and teardown, per-step
    callbacks and interrupt-safe final save.

    Conventions of the embedding.
    - Python [int] is [Z] or [nat] (unbounded); Python [float] is modelled
      by exact rationals [Q]. The inputs at which the curriculum is shown to
      depart from its specification are such that binary64 arithmetic is
      exact on them as well.
    - A Python call either returns, raises, or never returns to its caller
      (the process image was replaced by [os.execvp], or the call blocks or
      loops forever): the type [result].
    - Effects (log lines, system calls, files written, calls into the
      learning library) are appended to a trace kept in the [world],
      together with the table of child processes and the set of existing
      paths. Effects performed before an exception is raised stay in the
      world, as in Python.
    - Values that Python draws at random or reads from the environment
      (the dictionary file, [random.randint], the value returned by
      [os.fork]) are explicit arguments. *)

From Stdlib Require Import ZArith QArith Qminmax Lia Lqa List.
From Corelib Require Import PrimFloat.
From stdpp Require Import base strings pretty gmap list.

(** ** Part I: the embedding *)

(** *** Python runtime: exceptions, results, the effect monad *)

Module Py.

Inductive exn :=
| KeyboardInterrupt
| AssertionError
| ZeroDivisionError
| IndexError
| ProcessLookupError
| ChildProcessError
| ValueError.

#[global] Instance exn_eq_dec : EqDecision exn.
Proof. solve_decision. Defined.

(** Why a call does not give control back to its caller. *)
Inductive noreturn :=
| Replaced   (* os.execvp succeeded: the interpreter is gone *)
| Diverges.  (* blocks or loops forever *)

Inductive result (A : Type) :=
| Ok (a : A)
| Raise (e : exn)
| NoReturn (why : noreturn).
Arguments Ok {A} a.
Arguments Raise {A} e.
Arguments NoReturn {A} why.

#[global] Instance result_ret : MRet result := fun A a => Ok a.
#[global] Instance result_bind : MBind result := fun A B f r =>
  match r with
  | Ok a => f a
  | Raise e => Raise e
  | NoReturn why => NoReturn why
  end.

Definition interrupted {A} (r : result A) : bool :=
  match r with Raise KeyboardInterrupt => true | _ => false end.

Inductive signal := SIGINT.

(** One element of an argv list: a literal string, or [str(x)] of a
    number ([str] of a float is kept symbolic). *)
Inductive arg :=
| Str (s : string)
| StrOfFloat (q : Q)
| StrOfInt (z : Z).

Inductive event :=
| EvLog (msg : string)                            (* logging.info *)
| EvFork (ret : Z)                                (* os.fork() returned ret *)
| EvExec (path : string) (argv : list arg)        (* os.execvp *)
| EvKill (pid : Z) (sig : signal)                 (* os.kill *)
| EvWaitpid (pid : Z)                             (* os.waitpid(pid, 0) *)
| EvPrepatchClose (shm_name : string)             (* the environment's original close *)
| EvMakeEnv (shm_name : string) (max_episode_steps : Z) (* gymnasium.make *)
| EvReset (seed : Z)                              (* velocity_env.reset *)
| EvPolicySave (path : string)                    (* policy.save / model.save *)
| EvAddText (tag : string)                        (* tb_formatter.writer.add_text *)
| EvWriteFile (path : string)                     (* open(path, "w") + yaml.dump *)
| EvEnvMethod (name key : string) (value : Q)     (* vec_env.env_method *)
| EvRecord (key : string) (value : Q).            (* logger.record *)

(** State of a child of the current process. A pid absent from the table
    is not a child of this process (never forked, or already reaped). *)
Inductive child_state :=
| Running
| Exited.   (* terminated, not yet waited for *)

Record world := World {
  children : gmap Z child_state;
  files : gset string;
  trace : list event;
}.

Definition empty_world : world :=
  {| children := ∅; files := ∅; trace := [] |}.

Definition M (A : Type) : Type := world → result A * world.

#[global] Instance M_ret : MRet M := fun A a w => (Ok a, w).
#[global] Instance M_bind : MBind M := fun A B f m w =>
  match m w with
  | (Ok a, w') => f a w'
  | (Raise e, w') => (Raise e, w')
  | (NoReturn why, w') => (NoReturn why, w')
  end.

Definition raise {A} (e : exn) : M A := fun w => (Raise e, w).
Definition noreturn_ {A} (why : noreturn) : M A := fun w => (NoReturn why, w).
Definition lift {A} (r : result A) : M A := fun w => (r, w).

Definition emit (e : event) : M () := fun w =>
  (Ok (), {| children := children w; files := files w; trace := trace w ++ [e] |}).

Definition get_children : M (gmap Z child_state) := fun w => (Ok (children w), w).
Definition set_children (c : gmap Z child_state) : M () := fun w =>
  (Ok (), {| children := c; files := files w; trace := trace w |}).
Definition get_files : M (gset string) := fun w => (Ok (files w), w).
Definition create_file (p : string) : M () := fun w =>
  (Ok (), {| children := children w; files := {[p]} ∪ files w; trace := trace w |}).

(** [try: body  except e: handler]. Only [e] is caught. *)
Definition try_except {A} (body : M A) (e : exn) (handler : M A) : M A := fun w =>
  match body w with
  | (Raise e', w') => if decide (e' = e) then handler w' else (Raise e', w')
  | rw => rw
  end.

(** [assert b] *)
Definition assert_ (b : bool) : M () :=
  if b then mret () else raise AssertionError.

(** [logging.info(msg)] *)
Definition logging_info (msg : string) : M () := emit (EvLog msg).

End Py.
Export Py.

(** *** The operating system, as seen by one process *)

Module OS.

(** [os.fork()]. [ret] is the value the call returns in the process that
    is modelled: [0] in the child, whose own table of children starts
    empty, and the child's pid in the parent. *)
Definition fork (ret : Z) : M Z :=
  emit (EvFork ret);;
  c ← get_children;
  set_children (if decide (ret = 0%Z) then ∅ else <[ret := Running]> c);;
  mret ret.

(** [os.execvp(path, argv)]: on success the process image is replaced and
    no Python code runs afterwards. *)
Definition execvp (path : string) (argv : list arg) : M () :=
  emit (EvExec path argv);;
  noreturn_ Replaced.

(** [os.kill(pid, sig)]. A running simulator that receives SIGINT
    terminates; a terminated child that was not waited for can still be
    signalled, to no effect; a pid that is no child of this process any
    more does not exist (pids are taken not to be reused):
    ProcessLookupError. The call is recorded whatever its outcome. *)
Definition kill (pid : Z) (sig : signal) : M () :=
  emit (EvKill pid sig);;
  c ← get_children;
  match c !! pid with
  | Some Running => set_children (<[pid := Exited]> c)
  | Some Exited => mret ()
  | None => raise ProcessLookupError
  end.

(** [os.waitpid(pid, 0)]: reaps a terminated child, blocks on a child that
    never terminates, and raises ChildProcessError when [pid] is not a
    child of this process. *)
Definition waitpid (pid : Z) : M () :=
  emit (EvWaitpid pid);;
  c ← get_children;
  match c !! pid with
  | Some Exited => set_children (delete pid c)
  | Some Running => noreturn_ Diverges
  | None => raise ChildProcessError
  end.

(** [os.path.exists(p)] *)
Definition path_exists (fs : gset string) (p : string) : bool :=
  bool_decide (p ∈ fs).

End OS.

(** *** get_random_word *)

Module Words.

(** [c.isalnum()] for one ASCII character: a digit or a letter. *)
Definition is_alnum_ascii (c : Ascii.ascii) : bool :=
  let n := Ascii.nat_of_ascii c in
  ((48 <=? n) && (n <=? 57)) || ((65 <=? n) && (n <=? 90))
  || ((97 <=? n) && (n <=? 122)).

Fixpoint all_alnum (s : string) : bool :=
  match s with
  | EmptyString => true
  | String c s' => is_alnum_ascii c && all_alnum s'
  end.

(** [s.isalnum()]: at least one character, all alphanumeric. Words are
    taken to be ASCII: a byte above 127 counts as not alphanumeric. *)
Definition isalnum (s : string) : bool :=
  match s with
  | EmptyString => false
  | _ => all_alnum s
  end.

(** [random.randint(a, b)] returns some [n] with [a <= n <= b]: both ends
    are included. *)
Definition randint_range (a b n : nat) : Prop := a ≤ n ≤ b.

(** The loop
      [while not words[word_index].isalnum():
           word_index = (word_index + 1) % len(words)]
    returning the final [word_index]. Indexing past the end raises
    IndexError. [fuel] bounds the number of times the body runs. *)
Fixpoint skip_to_alnum (fuel : nat) (words : list string) (word_index : nat)
  : result nat :=
  match words !! word_index with
  | None => Raise IndexError
  | Some w =>
      if isalnum w then Ok word_index
      else match fuel with
           | O => NoReturn Diverges
           | S fuel' =>
               skip_to_alnum fuel' words ((word_index + 1) mod length words)
           end
  end.

(** [get_random_word()], given the lines of the dictionary file and the
    value [draw] of [random.randint(0, len(words))]. The loop body runs
    at most [len(words)] times before an index repeats, so that much
    fuel is exact (see [skip_to_alnum_finds]). *)
Definition get_random_word (words : list string) (draw : nat) : result string :=
  word_index ← skip_to_alnum (length words) words draw;
  match words !! word_index with
  | Some w => Ok w
  | None => Raise IndexError
  end.

End Words.

(** *** find_save_path *)

Module SavePath.

(** [path_for_iter(nb_iter)] = f"{training_dir}/{policy_name}_{nb_iter}" *)
Definition path_for_iter (training_dir policy_name : string) (nb_iter : nat)
  : string :=
  training_dir +:+ "/" +:+ policy_name +:+ "_" +:+ pretty nb_iter.

(** The loop [while os.path.exists(path_for_iter(nb_iter)): nb_iter += 1]
    followed by the return, for any existence test. *)
Fixpoint find_save_path_from (path_exists : string → bool)
    (training_dir policy_name : string) (fuel nb_iter : nat) : result string :=
  let p := path_for_iter training_dir policy_name nb_iter in
  if path_exists p then
    match fuel with
    | O => NoReturn Diverges
    | S fuel' =>
        find_save_path_from path_exists training_dir policy_name fuel'
          (nb_iter + 1)
    end
  else Ok p.

(** [find_save_path(training_dir, policy_name)] on a file system with the
    finite set [fs] of existing paths: [nb_iter] starts at 1. The body can
    run at most [size fs] times (see [find_save_path_total]). *)
Definition find_save_path (fs : gset string) (training_dir policy_name : string)
  : result string :=
  find_save_path_from (OS.path_exists fs) training_dir policy_name (size fs) 1.

End SavePath.

(** *** Python arithmetic used by the script *)

Module Arith.

(** [a % b] on ints: the result has the sign of [b], as [Z.modulo];
    ZeroDivisionError when [b = 0]. *)
Definition py_mod (a b : Z) : result Z :=
  if decide (b = 0%Z) then Raise ZeroDivisionError else Ok (a mod b)%Z.

(** [a // b] on ints: floor division, as [Z.div]. *)
Definition py_floordiv (a b : Z) : result Z :=
  if decide (b = 0%Z) then Raise ZeroDivisionError else Ok (a / b)%Z.

(** [a / b]: true division. *)
Definition py_truediv (a b : Q) : result Q :=
  if Qeq_bool b 0 then Raise ZeroDivisionError else Ok (a / b)%Q.

(** [int(x)] of a float: truncation towards zero. *)
Definition py_int (x : Q) : Z := Z.quot (Qnum x) (Z.pos (Qden x)).

(** [np.clip(x, lo, hi)] = minimum(maximum(x, lo), hi) *)
Definition np_clip (x lo hi : Q) : Q := Qmin (Qmax x lo) hi.

End Arith.

(** *** Simulator workers: get_bullet_argv, init_env, close_monkeypatch *)

Module Spine.

(** The fields of [EnvSettings] (settings.py, configured through gin) that
    the script reads. *)
Record EnvSettings := {
  agent_frequency : Z;
  spine_frequency : Z;
  env_id : string;
}.

(** [get_bullet_argv(shm_name, show)] *)
Definition get_bullet_argv (env_settings : EnvSettings)
    (shm_name : string) (show : bool) : M (list arg) :=
  let agent_frequency := agent_frequency env_settings in
  let spine_frequency := spine_frequency env_settings in
  r ← lift (Arith.py_mod spine_frequency agent_frequency);
  assert_ (bool_decide (r = 0%Z));;
  nb_substeps ←
    lift (Arith.py_truediv (inject_Z spine_frequency) (inject_Z agent_frequency));
  let bullet_argv := [] in
  let bullet_argv := bullet_argv ++ [Str "--shm-name"; Str shm_name] in
  let bullet_argv := bullet_argv ++ [Str "--nb-substeps"; StrOfFloat nb_substeps] in
  let bullet_argv :=
    bullet_argv ++ [Str "--spine-frequency"; StrOfInt spine_frequency] in
  let bullet_argv :=
    if show then bullet_argv ++ [Str "--show"] else bullet_argv in
  mret bullet_argv.

(** The environment returned by [_init]: the gymnasium environment bound
    to one simulator, with its [close] replaced by [close_monkeypatch].
    The closure variables of [close_monkeypatch] are its fields. *)
Record env := {
  env_shm_name : string;
  env_pid : Z;
}.

(** [close_monkeypatch()] of the environment made for [shm_name], [pid].
    The original close, [velocity_env._prepatch_close()], is recorded as an
    event and taken to succeed. *)
Definition close_monkeypatch (shm_name : string) (pid : Z) : M () :=
  logging_info
    ("Terminating spine " +:+ shm_name +:+ " with pid=" +:+ pretty pid +:+ "...");;
  OS.kill pid SIGINT;;
  OS.waitpid pid;;
  emit (EvPrepatchClose shm_name).

(** The effects of one complete [close_monkeypatch()], in order. *)
Definition close_events (shm_name : string) (pid : Z) : list event :=
  [ EvLog ("Terminating spine " +:+ shm_name +:+ " with pid=" +:+ pretty pid
           +:+ "...");
    EvKill pid SIGINT;
    EvWaitpid pid;
    EvPrepatchClose shm_name ].

(** [env.close()]: the wrappers ([Monitor], [make_ppo_balancer_env]) pass
    the call down to [velocity_env.close], which is [close_monkeypatch]. *)
Definition env_close (e : env) : M () :=
  close_monkeypatch (env_shm_name e) (env_pid e).

(** The closure [_init] returned by
    [init_env(max_episode_duration, show, spine_path)], where [seed] is the
    value drawn by [init_env]. [words] and [draw] feed [get_random_word],
    [fork_ret] is what [os.fork()] returns in the process that is followed.
    The child's bare [return] gives [None]. [gymnasium.make] and [reset]
    are recorded as events; the seeding of the trainer's own generators by
    [set_random_seed] in [init_env] is not modelled. *)
Definition init_env (env_settings : EnvSettings) (seed : Z)
    (max_episode_duration : Q) (show : bool) (spine_path : string)
    (words : list string) (draw : nat) (fork_ret : Z) : M (option env) :=
  word ← lift (Words.get_random_word words draw);
  let shm_name := "/" +:+ word in
  pid ← OS.fork fork_ret;
  if decide (pid = 0%Z) then
    (* child process: spine *)
    argv ← get_bullet_argv env_settings shm_name show;
    OS.execvp spine_path (Str "bullet" :: argv);;
    mret None
  else
    (* parent process: trainer *)
    let agent_frequency := agent_frequency env_settings in
    emit (EvMakeEnv shm_name
            (Arith.py_int (max_episode_duration * inject_Z agent_frequency)));;
    emit (EvReset seed);;
    mret (Some {| env_shm_name := shm_name; env_pid := pid |}).

End Spine.

(** *** Two statements of the specification about workers *)

Module WorkerSpec.
Import Spine.


(** "safe to call multiple times without re-signaling an already-exited
    process": when a first close returns, a second one returns too and
    does not call [os.kill] again. *)
Definition second_close_safe (shm_name : string) (pid : Z) (w : world) : Prop :=
  let first := close_monkeypatch shm_name pid w in
  let second := close_monkeypatch shm_name pid first.2 in
  first.1 = Ok () →
  second.1 = Ok ()
  ∧ ∀ evs, trace second.2 = trace first.2 ++ evs → EvKill pid SIGINT ∉ evs.

End WorkerSpec.

(** *** Per-step callbacks *)

Module Callbacks.

(** The curriculum arithmetic of [InitRandomizationCallback._on_step]:
    [np.clip((num_timesteps - start_timestep) / end_timestep, 0.0, 1.0)].
    [end_timestep] is annotated [int] and passed the float [1e5]. *)
Definition progress (start_timestep : Z) (end_timestep : Q) (num_timesteps : Z)
  : result Q :=
  x ← Arith.py_truediv (inject_Z (num_timesteps - start_timestep)) end_timestep;
  mret (Arith.np_clip x 0 1).

(** [cur_value = progress * self.max_value] *)
Definition cur_value (max_value : Q) (start_timestep : Z) (end_timestep : Q)
    (num_timesteps : Z) : result Q :=
  p ← progress start_timestep end_timestep num_timesteps;
  mret (p * max_value)%Q.

(** The progress when the division is defined (see [progress_defined]). *)
Definition ramp (start_timestep : Z) (end_timestep : Q) (num_timesteps : Z) : Q :=
  Arith.np_clip (inject_Z (num_timesteps - start_timestep) / end_timestep) 0 1.

(** The callbacks registered by [train_policy], with the arguments of
    their constructors ([vec_env] is the pool of the run). *)
Inductive callback :=
| CheckpointCallback (save_freq : Z) (save_path name_prefix : string)
| SummaryWriterCallback (save_path : string)
| InitRandomizationCallback (key : string) (max_value : Q)
    (start_timestep : Z) (end_timestep : Q).

(** A callback object: its constructor arguments and the two counters
    kept by stable_baselines3's [BaseCallback], both 0 at construction. *)
Record callback_state := {
  cb : callback;
  n_calls : nat;
  num_timesteps : Z;
}.

Definition new_callback (c : callback) : callback_state :=
  {| cb := c; n_calls := 0; num_timesteps := 0 |}.

(** [SummaryWriterCallback._on_step] *)
Definition SummaryWriterCallback_on_step (self : callback_state)
    (save_path_ : string) : M () :=
  if negb (n_calls self =? 1)%nat then mret ()
  else
    emit (EvAddText "config");;
    let save_path := save_path_ +:+ "/config.yaml" in
    emit (EvWriteFile save_path);;
    create_file save_path;;
    logging_info ("Saved configuration to " +:+ save_path).

(** [InitRandomizationCallback._on_step] *)
Definition InitRandomizationCallback_on_step (self : callback_state)
    (key : string) (max_value : Q) (start_timestep : Z) (end_timestep : Q)
  : M () :=
  cur_value ←
    lift (cur_value max_value start_timestep end_timestep (num_timesteps self));
  emit (EvEnvMethod "update_init_rand" key cur_value);;
  emit (EvRecord ("init_rand/" +:+ key) cur_value).

(** [CheckpointCallback._on_step] of stable_baselines3: when
    [n_calls % save_freq == 0], save the model to
    f"{save_path}/{name_prefix}_{num_timesteps}_steps.zip". *)
Definition CheckpointCallback_on_step (self : callback_state)
    (save_freq : Z) (save_path name_prefix : string) : M () :=
  r ← lift (Arith.py_mod (Z.of_nat (n_calls self)) save_freq);
  if decide (r = 0%Z) then
    let path := save_path +:+ "/" +:+ name_prefix +:+ "_"
                +:+ pretty (num_timesteps self) +:+ "_steps.zip" in
    emit (EvPolicySave path);;
    create_file path
  else mret ().

Definition _on_step (self : callback_state) : M () :=
  match cb self with
  | CheckpointCallback save_freq save_path name_prefix =>
      CheckpointCallback_on_step self save_freq save_path name_prefix
  | SummaryWriterCallback save_path =>
      SummaryWriterCallback_on_step self save_path
  | InitRandomizationCallback key max_value start_timestep end_timestep =>
      InitRandomizationCallback_on_step self key max_value start_timestep
        end_timestep
  end.

(** [BaseCallback.on_step] of stable_baselines3:
      [self.n_calls += 1]
      [self.num_timesteps = self.model.num_timesteps]
      [return self._on_step()] *)
Definition on_step (model_num_timesteps : Z) (self : callback_state)
  : M callback_state :=
  let self := {| cb := cb self; n_calls := n_calls self + 1;
                 num_timesteps := model_num_timesteps |} in
  _on_step self;;
  mret self.

(** A list of callbacks is stepped in order at every step. *)
Fixpoint on_step_all (model_num_timesteps : Z) (cbs : list callback_state)
  : M (list callback_state) :=
  match cbs with
  | [] => mret []
  | c :: cbs' =>
      c' ← on_step model_num_timesteps c;
      cbs'' ← on_step_all model_num_timesteps cbs';
      mret (c' :: cbs'')
  end.

(** [steps] consecutive steps of the vectorized environment, each advancing
    the model's [num_timesteps] by [nb_envs] and then stepping the
    callbacks. *)
Fixpoint run_steps (nb_envs : Z) (steps : nat) (model_num_timesteps : Z)
    (cbs : list callback_state) : M (list callback_state) :=
  match steps with
  | O => mret cbs
  | S steps' =>
      let t := (model_num_timesteps + nb_envs)%Z in
      cbs' ← on_step_all t cbs;
      run_steps nb_envs steps' t cbs'
  end.

(** [policy.learn(total_timesteps, callback)] as far as the callbacks see
    it: the library performs [nb_steps] environment steps (a number it
    derives from [total_timesteps] and its rollout length); a user
    interrupt, if any, raises KeyboardInterrupt after
    [interrupt_after = Some k] completed steps. *)
Definition sb3_learn (nb_envs : Z) (nb_steps : nat) (interrupt_after : option nat)
    (callbacks : list callback) : M () :=
  let cbs := new_callback <$> callbacks in
  match interrupt_after with
  | Some k =>
      if (k <? nb_steps)%nat then
        run_steps nb_envs k 0 cbs;; raise KeyboardInterrupt
      else run_steps nb_envs nb_steps 0 cbs;; mret ()
  | None => run_steps nb_envs nb_steps 0 cbs;; mret ()
  end.

End Callbacks.

(** *** The curriculum as the specification words it *)

Module CurriculumSpec.

(** progress = clamp((current_step - start_step) / (end_step - start_step), 0, 1) *)
Definition spec_progress (start_step end_step current_step : Q) : Q :=
  Arith.np_clip ((current_step - start_step) / (end_step - start_step)) 0 1.

(** value = progress * max_value *)
Definition spec_value (max_value start_step end_step current_step : Q) : Q :=
  (spec_progress start_step end_step current_step * max_value)%Q.

End CurriculumSpec.

(** *** The curriculum arithmetic in IEEE binary64

    The arithmetic Python itself runs, on the kernel's primitive floats, to
    evaluate the curriculum at concrete inputs. *)

Module Binary64.

(** [float(p)] for a positive int below 2^53 (exact there). *)
Fixpoint float_of_positive (p : positive) : float :=
  match p with
  | xH => 1%float
  | xO p' => (2 * float_of_positive p')%float
  | xI p' => (2 * float_of_positive p' + 1)%float
  end.

Definition float_of_Z (z : Z) : float :=
  match z with
  | Z0 => 0%float
  | Zpos p => float_of_positive p
  | Zneg p => (- float_of_positive p)%float
  end.

(** [np.clip(x, lo, hi)] = minimum(maximum(x, lo), hi) *)
Definition np_clip (x lo hi : float) : float :=
  let m := if (x <? lo)%float then lo else x in
  if (hi <? m)%float then hi else m.

Definition progress (start_timestep : Z) (end_timestep : float)
    (num_timesteps : Z) : result float :=
  if (end_timestep =? 0)%float then Raise ZeroDivisionError
  else Ok (np_clip (float_of_Z (num_timesteps - start_timestep) / end_timestep)
             0 1).

Definition cur_value (max_value : float) (start_timestep : Z)
    (end_timestep : float) (num_timesteps : Z) : result float :=
  p ← progress start_timestep end_timestep num_timesteps;
  mret (p * max_value)%float.

End Binary64.

(** *** train_policy *)

Module Train.
Import Spine Callbacks.

(** [policy.env.close()]: the pool closes its member environments in
    order ([DummyVecEnv.close]; [SubprocVecEnv] asks every worker to close
    its environment). *)
Fixpoint vec_env_close (vec_env : list env) : M () :=
  match vec_env with
  | [] => mret ()
  | e :: vec_env' => env_close e;; vec_env_close vec_env'
  end.

(** The effects of closing every member of the pool, in order. *)
Definition pool_events (vec_env : list env) : list event :=
  e ← vec_env; close_events (env_shm_name e) (env_pid e).

(** The members of the pool have distinct simulators, all of them
    children of the process (running, or terminated and not reaped). *)
Definition pool_live (vec_env : list env) (w : world) : Prop :=
  NoDup (env_pid <$> vec_env)
  ∧ ∀ e, e ∈ vec_env → is_Some (children w !! env_pid e).

(** The effects a close can have. *)
Definition is_teardown_event (ev : event) : Prop :=
  match ev with
  | EvLog _ | EvKill _ _ | EvWaitpid _ | EvPrepatchClose _ => True
  | _ => False
  end.

(** The effects of one step of the callbacks of [train_policy], all at
    their [n]-th call with the model at [t] timesteps, in the order of the
    callback list (see [on_step_all_train]). *)
Definition step_events (save_path : string) (save_freq : Z)
    (pitch v_x omega_y : Q) (n : nat) (t : Z) : list event :=
  (if decide (Z.of_nat n mod save_freq = 0)%Z
   then [EvPolicySave (save_path +:+ "/checkpoint_" +:+ pretty t +:+ "_steps.zip")]
   else [])
  ++ (if (n =? 1)%nat
      then [ EvAddText "config";
             EvWriteFile (save_path +:+ "/config.yaml");
             EvLog ("Saved configuration to " +:+ save_path +:+ "/config.yaml") ]
      else [])
  ++ [ EvEnvMethod "update_init_rand" "pitch" (ramp 0 100000 t * pitch);
       EvRecord "init_rand/pitch" (ramp 0 100000 t * pitch);
       EvEnvMethod "update_init_rand" "v_x" (ramp 0 100000 t * v_x);
       EvRecord "init_rand/v_x" (ramp 0 100000 t * v_x);
       EvEnvMethod "update_init_rand" "omega_y" (ramp 0 100000 t * omega_y);
       EvRecord "init_rand/omega_y" (ramp 0 100000 t * omega_y) ].

(** The effects of [steps] consecutive steps, the callbacks having been
    called [n] times before and the model being at [t] timesteps. *)
Fixpoint run_events (save_path : string) (save_freq : Z) (pitch v_x omega_y : Q)
    (nb_envs : Z) (steps n : nat) (t : Z) : list event :=
  match steps with
  | O => []
  | S steps' =>
      step_events save_path save_freq pitch v_x omega_y (n + 1) (t + nb_envs)
      ++ run_events save_path save_freq pitch v_x omega_y nb_envs steps' (n + 1)
           (t + nb_envs)
  end.

(** The five callback objects of [train_policy] after [n] calls. *)
Definition callback_states (save_path : string) (save_freq : Z)
    (pitch v_x omega_y : Q) (n : nat) (t : Z) : list callback_state :=
  (λ c, {| cb := c; n_calls := n; num_timesteps := t |})
  <$> [ CheckpointCallback save_freq save_path "checkpoint";
        SummaryWriterCallback save_path;
        InitRandomizationCallback "pitch" pitch 0 100000;
        InitRandomizationCallback "v_x" v_x 0 100000;
        InitRandomizationCallback "omega_y" omega_y 0 100000 ].

Definition is_config_write (ev : event) : bool :=
  match ev with EvWriteFile _ => true | _ => false end.

Definition is_policy_save (ev : event) : bool :=
  match ev with EvPolicySave _ => true | _ => false end.

(** [policy.save(path)], taken to succeed: the artifact is written. *)
Definition policy_save (path : string) : M () :=
  emit (EvPolicySave path);;
  create_file path.

(** The three fields of [max_init_rand], the [InitRandomization] built
    from the [init_rand] dictionary, that are used. *)
Record InitRandomization := {
  pitch : Q;
  v_x : Q;
  omega_y : Q;
}.

(** The callback list built inside the [try] block. *)
Definition train_callbacks (save_path : string) (nb_envs : Z)
    (max_init_rand : InitRandomization) : M (list callback) :=
  q ← lift (Arith.py_floordiv 210000 nb_envs);
  mret [ CheckpointCallback (Z.max q 1000) save_path "checkpoint";
         SummaryWriterCallback save_path;
         InitRandomizationCallback "pitch" (pitch max_init_rand) 0 100000;
         InitRandomizationCallback "v_x" (v_x max_init_rand) 0 100000;
         InitRandomizationCallback "omega_y" (omega_y max_init_rand) 0 100000 ].

(** The start of [train_policy]: the run name and the output path, on the
    file system of the world. [words] and [draw] feed [get_random_word]. *)
Definition resolve_save_path (policy_name training_dir : string)
    (words : list string) (draw : nat) : M (string * string) :=
  policy_name ←
    (if decide (policy_name = "") then lift (Words.get_random_word words draw)
     else mret policy_name);
  fs ← get_files;
  save_path ← lift (SavePath.find_save_path fs training_dir policy_name);
  logging_info ("New policy name is " +:+ policy_name);;
  logging_info ("Training data will be logged to " +:+ save_path);;
  mret (policy_name, save_path).

(** [DummyVecEnv(env_fns)] and [SubprocVecEnv(env_fns)] call every factory
    once, in order. A factory that gives [None], which [_init] never does
    in the trainer process, is rejected by the library. *)
Fixpoint make_vec_env (env_fns : list (M (option env))) : M (list env) :=
  match env_fns with
  | [] => mret []
  | fn :: env_fns' =>
      made ← fn;
      match made with
      | Some e => vec_env ← make_vec_env env_fns'; mret (e :: vec_env)
      | None => raise ValueError
      end
  end.

(** The nondeterministic inputs of one environment factory: the seed drawn
    by [init_env], and for its [_init] the draw of [get_random_word] and the
    value returned by [os.fork]. *)
Record spawn := {
  spawn_seed : Z;
  spawn_draw : nat;
  spawn_fork_ret : Z;
}.

Section TrainPolicy.

(** [policy.learn(total_timesteps, callback, tb_log_name)], a collaborator
    of the script: any computation over the callbacks it is given. *)
Variable policy_learn : list callback → M ().

(** The end of [train_policy], from [max_init_rand = ...] on: the
    [try] block around [policy.learn], the final save, the close. *)
Definition learn_and_save (save_path : string) (nb_envs : Z)
    (max_init_rand : InitRandomization) (vec_env : list env) : M () :=
  try_except
    (callbacks ← train_callbacks save_path nb_envs max_init_rand;
     policy_learn callbacks)
    KeyboardInterrupt
    (logging_info "Training interrupted.");;
  (* Save policy no matter what! *)
  policy_save (save_path +:+ "/final.zip");;
  vec_env_close vec_env.

(** [train_policy(policy_name, training_dir, nb_envs, show, init_rand,
    max_episode_duration, ...)]. [spine_path] stands for the runfiles
    lookup, [words] for the dictionary file, [name_draw] for the draw of the
    run name and [spawns i] for the inputs of the [i]-th environment. The
    warm-up call of [make_ppo_balancer_env], the log line about the discount
    factor and the construction of the PPO object touch nothing that is
    modelled and are left out. *)
Definition train_policy (env_settings : EnvSettings) (spine_path : string)
    (words : list string) (name_draw : nat) (spawns : nat → spawn)
    (policy_name training_dir : string) (nb_envs : Z) (show : bool)
    (init_rand : InitRandomization) (max_episode_duration : Q) : M () :=
  names ← resolve_save_path policy_name training_dir words name_draw;
  let save_path := names.2 in
  let env_fn (i : nat) :=
    init_env env_settings (spawn_seed (spawns i)) max_episode_duration show
      spine_path words (spawn_draw (spawns i)) (spawn_fork_ret (spawns i)) in
  vec_env ←
    make_vec_env
      (if decide (1 < nb_envs)%Z then env_fn <$> seq 0 (Z.to_nat nb_envs)
       else [env_fn 0]);
  let max_init_rand := init_rand in
  learn_and_save save_path nb_envs max_init_rand vec_env.

End TrainPolicy.

End Train.

(** *** The pool, seen from the trainer *)

Module Pool.
Import Spine Train.

(** The word that [get_random_word] returns for a draw (the empty string
    stands in when it does not return). *)
Definition drawn_word (words : list string) (draw : nat) : string :=
  match Words.get_random_word words draw with
  | Ok word => word
  | _ => ""
  end.

(** The environment that [_init] returns in the trainer process. *)
Definition spawned_env (words : list string) (s : spawn) : env :=
  {| env_shm_name := "/" +:+ drawn_word words (spawn_draw s);
     env_pid := spawn_fork_ret s |}.

(** The effects of [_init] in the trainer process. *)
Definition spawn_events (env_settings : EnvSettings) (max_episode_duration : Q)
    (words : list string) (s : spawn) : list event :=
  [ EvFork (spawn_fork_ret s);
    EvMakeEnv ("/" +:+ drawn_word words (spawn_draw s))
      (Arith.py_int (max_episode_duration
                     * inject_Z (agent_frequency env_settings)));
    EvReset (spawn_seed s) ].

(** The inputs of a factory let it build its environment in the trainer:
    the draw gives a word and [os.fork] returned a pid. *)
Definition spawn_ok (words : list string) (s : spawn) : Prop :=
  (∃ word, Words.get_random_word words (spawn_draw s) = Ok word)
  ∧ spawn_fork_ret s ≠ 0%Z.

(** The factories that [train_policy] hands to the pool: one per index of
    [range(nb_envs)] when [nb_envs > 1], a single one otherwise. *)
Definition env_indices (nb_envs : Z) : list nat :=
  if decide (1 < nb_envs)%Z then seq 0 (Z.to_nat nb_envs) else [0].

(** The process table after the simulators [pids] were forked. *)
Definition forked (pids : list Z) (c : gmap Z child_state)
  : gmap Z child_state :=
  foldl (λ c pid, <[pid := Running]> c) c pids.

(** The name of the run: the one given, or the drawn word when the one
    given is empty. *)
Definition run_name (words : list string) (name_draw : nat)
    (policy_name : string) : string :=
  if decide (policy_name = "") then drawn_word words name_draw else policy_name.

(** A run name can be had: one is given, or the draw gives a word. *)
Definition name_ok (words : list string) (name_draw : nat)
    (policy_name : string) : Prop :=
  policy_name = "" → ∃ word, Words.get_random_word words name_draw = Ok word.

End Pool.

(** *** SummaryWriterCallback._on_training_start *)

Module TrainingStart.

(** The output formats of the stable_baselines3 logger, by class; a
    TensorBoard format carries its writer. *)
Inductive formatter :=
| HumanOutputFormat
| JSONOutputFormat
| CSVOutputFormat
| TensorBoardOutputFormat (writer : nat).

(** [isinstance(formatter, TensorBoardOutputFormat)] *)
Definition is_tensorboard (f : formatter) : bool :=
  match f with TensorBoardOutputFormat _ => true | _ => false end.

(** What [_on_training_start] does: it sets [self.tb_formatter], or
    [next] finds the generator exhausted and raises StopIteration. *)
Inductive started :=
| TbFormatter (f : formatter)
| StopIteration.

(** [next(formatter for formatter in output_formats
          if isinstance(formatter, TensorBoardOutputFormat))] *)
Fixpoint _on_training_start (output_formats : list formatter) : started :=
  match output_formats with
  | [] => StopIteration
  | formatter :: output_formats' =>
      if is_tensorboard formatter then TbFormatter formatter
      else _on_training_start output_formats'
  end.

End TrainingStart.

(** *** The script's entry point *)

Module Main.
Import Spine Callbacks Train.

(** The namespace returned by [parse_command_line_arguments()]. *)
Record Args := {
  name : string;
  nb_envs : Z;
  show : bool;
}.

(** [os.environ.get(key, default)] *)
Definition environ_get (environ : gmap string string) (key default : string)
  : string :=
  match environ !! key with
  | Some value => value
  | None => default
  end.

(** The block under [if __name__ == "__main__"], after the command line
    and the gin files were read: [environ] is [os.environ], [tempdir] is
    [tempfile.gettempdir()], [date] is today's date in the format
    %Y-%m-%d. The arguments that gin binds for [train_policy] and the
    nondeterministic inputs are passed along. *)
Definition main (policy_learn : list callback → M ())
    (env_settings : EnvSettings) (spine_path : string)
    (words : list string) (name_draw : nat) (spawns : nat → spawn)
    (init_rand : InitRandomization) (max_episode_duration : Q)
    (environ : gmap string string) (tempdir date : string) (args : Args)
  : M () :=
  let training_path := environ_get environ "UPKIE_TRAINING_PATH" tempdir in
  let training_dir := training_path +:+ "/" +:+ date in
  logging_info ("Logging training data in " +:+ training_dir);;
  logging_info ("To track in TensorBoard, run `tensorboard --logdir "
                +:+ training_dir +:+ "`");;
  train_policy policy_learn env_settings spine_path words name_draw spawns
    (name args) training_dir (nb_envs args) (show args) init_rand
    max_episode_duration.

End Main.

(** ** Part II: properties *)

(** Run the monadic code of a goal on its world. *)
Ltac mrun :=
  cbv beta iota zeta delta
    [mbind M_bind mret M_ret emit get_children set_children get_files
     create_file raise noreturn_ lift logging_info assert_ try_except
     children files trace fst snd].

(** *** get_random_word *)

Section WordsFacts.
Import Words.

Lemma skip_to_alnum_reaches (words : list string) (w : string) :
  ∀ fuel i d,
    d ≤ fuel → i < length words →
    words !! ((i + d) mod length words) = Some w → isalnum w = true →
    ∃ j w', skip_to_alnum fuel words i = Ok j
            ∧ words !! j = Some w' ∧ isalnum w' = true.
Proof.
  induction fuel as [|fuel IH]; intros i d Hd Hi Hw Hal.
  - assert (d = 0) as -> by lia.
    rewrite Nat.add_0_r, Nat.mod_small in Hw by done.
    exists i, w. simpl. by rewrite Hw, Hal.
  - simpl. destruct (lookup_lt_is_Some_2 words i Hi) as [wi Hwi].
    rewrite Hwi. destruct (isalnum wi) eqn:Hali.
    + by exists i, wi.
    + destruct d as [|d].
      { rewrite Nat.add_0_r, Nat.mod_small in Hw by done. congruence. }
      apply (IH _ d); [lia | apply Nat.mod_upper_bound; lia | | done].
      rewrite Nat.Div0.add_mod_idemp_l.
      by replace (i + 1 + d) with (i + S d) by lia.
Qed.

(** From a valid start index the loop stops on an alphanumeric word as
    soon as the list has one: [length words] rounds of the body are
    enough, so the fuel given by [get_random_word] never runs out then. *)
Lemma skip_to_alnum_finds (words : list string) (draw : nat) :
  draw < length words →
  (∃ w, w ∈ words ∧ isalnum w = true) →
  ∃ w, get_random_word words draw = Ok w ∧ w ∈ words ∧ isalnum w = true.
Proof.
  intros Hdraw (w & [j Hj]%list_elem_of_lookup_1 & Hal).
  pose proof (lookup_lt_Some _ _ _ Hj) as Hjlt.
  set (n := length words) in *.
  destruct (skip_to_alnum_reaches words w n draw ((j + n - draw) mod n))
    as (k & w' & Hk & Hw' & Hal'); [| done | | done |].
  - pose proof (Nat.mod_upper_bound (j + n - draw) n). lia.
  - fold n. rewrite Nat.Div0.add_mod_idemp_r.
    replace (draw + (j + n - draw)) with (j + 1 * n) by lia.
    by rewrite Nat.Div0.mod_add, Nat.mod_small.
  - exists w'. unfold get_random_word. fold n. rewrite Hk. simpl.
    rewrite Hw'. split_and!; [done | by eapply list_elem_of_lookup_2 | done].
Qed.


(** C10 (code defect). [random.randint(0, len(words))] includes its upper
    end: the draw [len(words)] is in its range, and there the first
    [words[word_index]] is out of bounds and raises IndexError, for every
    word list. *)
Theorem get_random_word_draw_len_IndexError (words : list string) :
  randint_range 0 (length words) (length words)
  ∧ get_random_word words (length words) = Raise IndexError.
Proof.
  split; [unfold randint_range; lia |].
  unfold get_random_word.
  assert (skip_to_alnum (length words) words (length words) = Raise IndexError)
    as ->; [| done].
  destruct (length words) eqn:E; simpl; rewrite lookup_ge_None_2; auto; lia.
Qed.

Example get_random_word_abc_1 :
  get_random_word ["abc"] 1 = Raise IndexError.
Proof. reflexivity. Qed.

Example get_random_word_skips :
  get_random_word ["it's"; "abc"; "d-e"] 2 = Ok "abc".
Proof. reflexivity. Qed.

End WordsFacts.

(** *** find_save_path *)

Section SavePathFacts.
Import SavePath.

#[local] Instance path_for_iter_inj training_dir policy_name :
  Inj (=) (=) (path_for_iter training_dir policy_name).
Proof.
  intros n m H. unfold path_for_iter in H.
  repeat apply String.app_inj in H. by apply (inj pretty).
Qed.

(** The loop returns the first unused candidate at or after [nb_iter],
    provided one lies within [fuel] of it. *)
Lemma find_save_path_from_first (path_exists : string → bool)
    (training_dir policy_name : string) :
  ∀ fuel nb_iter n,
    nb_iter ≤ n ≤ nb_iter + fuel →
    path_exists (path_for_iter training_dir policy_name n) = false →
    (∀ k, nb_iter ≤ k < n →
          path_exists (path_for_iter training_dir policy_name k) = true) →
    find_save_path_from path_exists training_dir policy_name fuel nb_iter
    = Ok (path_for_iter training_dir policy_name n).
Proof.
  induction fuel as [|fuel IH]; intros i n Hn Hfree Hused; simpl.
  - assert (n = i) as -> by lia. by rewrite Hfree.
  - destruct (decide (n = i)) as [->|Hne]; [by rewrite Hfree |].
    rewrite Hused by lia. apply IH; [lia | done |].
    intros k Hk. apply Hused. lia.
Qed.

(** Pigeonhole: the candidates numbered 1 to [size fs + 1] are pairwise
    distinct, so one of them is not in [fs]. *)
Lemma unused_candidate (fs : gset string) (training_dir policy_name : string) :
  ∃ n, 1 ≤ n ≤ 1 + size fs ∧ path_for_iter training_dir policy_name n ∉ fs.
Proof.
  set (cands := path_for_iter training_dir policy_name <$> seq 1 (S (size fs))).
  destruct (decide (Forall (λ p, p ∈ fs) cands)) as [Hall|Hex].
  - exfalso.
    assert (list_to_set cands ⊆ fs) as Hsub.
    { intros p Hp%elem_of_list_to_set. by eapply Forall_forall in Hall. }
    apply subseteq_size in Hsub.
    rewrite size_list_to_set in Hsub.
    + unfold cands in Hsub. rewrite length_fmap, length_seq in Hsub. lia.
    + apply NoDup_fmap_2; [apply _ | apply NoDup_seq].
  - apply not_Forall_Exists in Hex; [| apply _].
    apply Exists_exists in Hex as (p & Hp & Hnin).
    apply list_elem_of_fmap in Hp as (n & -> & Hn%elem_of_seq).
    exists n. split; [lia | done].
Qed.

(** Least unused candidate, from any unused one. *)
Lemma all_or_least (P : nat → Prop) `{∀ n, Decision (P n)} :
  ∀ b, (∀ k, 1 ≤ k ≤ b → P k)
       ∨ ∃ n, 1 ≤ n ≤ b ∧ ¬ P n ∧ ∀ k, 1 ≤ k < n → P k.
Proof.
  induction b as [|b [IH|(n & Hn & HP & Hleast)]].
  - left. lia.
  - destruct (decide (P (S b))) as [HS|HS].
    + left. intros k Hk. destruct (decide (k = S b)) as [->|]; [done |].
      apply IH. lia.
    + right. exists (S b). split; [lia | split; [done |]].
      intros k Hk. apply IH. lia.
  - right. exists n. split; [lia | done].
Qed.

Lemma least_unused (P : nat → Prop) `{∀ n, Decision (P n)} :
  ∀ b, (∃ n, 1 ≤ n ≤ b ∧ ¬ P n) →
       ∃ n, 1 ≤ n ≤ b ∧ ¬ P n ∧ ∀ k, 1 ≤ k < n → P k.
Proof.
  intros b (n & Hn & HP).
  destruct (all_or_least P b) as [Hall|Hex]; [| done].
  exfalso. by apply HP, Hall.
Qed.

(** [find_save_path] always returns, and what it returns is the first
    unused candidate. *)
Lemma find_save_path_total (fs : gset string) (training_dir policy_name : string) :
  ∃ n, 1 ≤ n
       ∧ find_save_path fs training_dir policy_name
         = Ok (path_for_iter training_dir policy_name n)
       ∧ (path_for_iter training_dir policy_name n ∉ fs)
       ∧ ∀ k, 1 ≤ k < n → path_for_iter training_dir policy_name k ∈ fs.
Proof.
  destruct (least_unused (λ n, path_for_iter training_dir policy_name n ∈ fs)
              (1 + size fs) (unused_candidate fs training_dir policy_name))
    as (n & Hn & Hfree & Hused).
  exists n. split_and!; [lia | | done | done].
  apply find_save_path_from_first; [lia | |].
  - by apply bool_decide_eq_false.
  - intros k Hk. apply bool_decide_eq_true, Hused. lia.
Qed.

(** C5. [find_save_path(training_dir, policy_name)] returns the first
    path {training_dir}/{policy_name}_{n}, n = 1, 2, ..., that does not
    exist; so when the candidates 1 and 2 exist and candidate 3 does not,
    it returns candidate 3. *)
Theorem find_save_path_first_unused (fs : gset string)
    (training_dir policy_name : string) :
  (∃ n, 1 ≤ n
        ∧ find_save_path fs training_dir policy_name
          = Ok (training_dir +:+ "/" +:+ policy_name +:+ "_" +:+ pretty n)
        ∧ ((training_dir +:+ "/" +:+ policy_name +:+ "_" +:+ pretty n) ∉ fs)
        ∧ ∀ k, 1 ≤ k < n →
               (training_dir +:+ "/" +:+ policy_name +:+ "_" +:+ pretty k) ∈ fs)
  ∧ ((training_dir +:+ "/" +:+ policy_name +:+ "_1") ∈ fs →
     (training_dir +:+ "/" +:+ policy_name +:+ "_2") ∈ fs →
     (training_dir +:+ "/" +:+ policy_name +:+ "_3") ∉ fs →
     find_save_path fs training_dir policy_name
     = Ok (training_dir +:+ "/" +:+ policy_name +:+ "_3")).
Proof.
  split; [apply find_save_path_total |].
  intros H1 H2 H3.
  destruct (find_save_path_total fs training_dir policy_name)
    as (n & Hn & Heq & Hfree & Hused).
  rewrite Heq. assert (n = 3) as ->; [| done].
  destruct (decide (3 < n)) as [Hlt|Hge].
  { exfalso. apply H3. apply (Hused 3). lia. }
  assert (n = 1 ∨ n = 2 ∨ n = 3) as [-> | [-> | ->]] by lia; done.
Qed.

Lemma find_save_path_first_unused_witness :
  find_save_path {[ "/tmp/run/policy_x_1"; "/tmp/run/policy_x_2" ]}
    "/tmp/run" "policy_x"
  = Ok "/tmp/run/policy_x_3".
Proof.
  apply (proj2 (find_save_path_first_unused
                  {[ "/tmp/run/policy_x_1"; "/tmp/run/policy_x_2" ]}
                  "/tmp/run" "policy_x")); vm_compute; set_solver.
Defined.

Example find_save_path_fresh :
  find_save_path ∅ "/tmp/run" "policy_x" = Ok "/tmp/run/policy_x_1".
Proof. reflexivity. Qed.

End SavePathFacts.

(** *** The curriculum schedule *)

Section CurriculumFacts.
Import Arith Callbacks CurriculumSpec.
Local Open Scope Q_scope.

Lemma progress_defined start_timestep end_timestep num_timesteps :
  ¬ end_timestep == 0 →
  progress start_timestep end_timestep num_timesteps
  = Ok (ramp start_timestep end_timestep num_timesteps).
Proof.
  intros Hne. unfold progress, py_truediv.
  destruct (Qeq_bool end_timestep 0) eqn:E; [| done].
  by apply Qeq_bool_eq in E.
Qed.

Lemma progress_zero_division start_timestep end_timestep num_timesteps :
  end_timestep == 0 →
  progress start_timestep end_timestep num_timesteps = Raise ZeroDivisionError.
Proof.
  intros H0. unfold progress, py_truediv.
  by rewrite (proj2 (Qeq_bool_iff _ _) H0).
Qed.

Lemma cur_value_defined max_value start_timestep end_timestep num_timesteps :
  ¬ end_timestep == 0 →
  cur_value max_value start_timestep end_timestep num_timesteps
  = Ok (ramp start_timestep end_timestep num_timesteps * max_value).
Proof. intros Hne. unfold cur_value. by rewrite progress_defined. Qed.

(** Case analysis on the two comparisons made by [np.clip]. *)
Ltac clip_cases x :=
  unfold np_clip;
  destruct (Q.max_spec_le x 0) as [[? ?]|[? ?]];
  destruct (Q.min_spec_le (Qmax x 0) 1) as [[? ?]|[? ?]].

Lemma np_clip_bounds x : 0 <= np_clip x 0 1 <= 1.
Proof. clip_cases x; lra. Qed.

Lemma np_clip_mono x y : x <= y → np_clip x 0 1 <= np_clip y 0 1.
Proof.
  intros H. unfold np_clip.
  by apply Q.min_le_compat_r, Q.max_le_compat_r.
Qed.

Lemma np_clip_low x : x <= 0 → np_clip x 0 1 == 0.
Proof. intros H. clip_cases x; lra. Qed.

Lemma np_clip_high x : 1 <= x → np_clip x 0 1 == 1.
Proof. intros H. clip_cases x; lra. Qed.

(** The computed value never decreases with the step count, for a positive
    [end_timestep] and a non-negative [max_value]. *)
Lemma cur_value_monotone max_value start_timestep end_timestep s s' :
  0 < end_timestep → 0 <= max_value → (s ≤ s')%Z →
  ramp start_timestep end_timestep s * max_value
  <= ramp start_timestep end_timestep s' * max_value.
Proof.
  intros Hend Hmax Hs. apply Qmult_le_compat_r; [| done].
  apply np_clip_mono. unfold Qdiv. apply Qmult_le_compat_r.
  - rewrite <- Zle_Qle. lia.
  - apply Qinv_le_0_compat. by apply Qlt_le_weak.
Qed.

(** It stays between 0 and [max_value]. *)
Lemma cur_value_bounds max_value start_timestep end_timestep s :
  0 <= max_value →
  0 <= ramp start_timestep end_timestep s * max_value <= max_value.
Proof.
  intros Hmax. destruct (np_clip_bounds
    (inject_Z (s - start_timestep) / end_timestep)) as [Hlo Hhi].
  fold (ramp start_timestep end_timestep s) in Hlo, Hhi. split.
  - by apply Qmult_le_0_compat.
  - rewrite <- (Qmult_1_l max_value) at 2. by apply Qmult_le_compat_r.
Qed.

(** It is 0 at [start_timestep]. *)
Lemma cur_value_at_start max_value start_timestep end_timestep :
  ramp start_timestep end_timestep start_timestep * max_value == 0.
Proof.
  unfold ramp. rewrite Z.sub_diag.
  assert (inject_Z 0 / end_timestep == 0) as H0
    by (unfold Qdiv; change (inject_Z 0) with 0; apply Qmult_0_l).
  rewrite np_clip_low by (rewrite H0; apply Qle_refl). apply Qmult_0_l.
Qed.

(** It reaches [max_value] once [num_timesteps - start_timestep] reaches
    [end_timestep], that is, [end_timestep] steps after the start. *)
Lemma cur_value_pinned max_value start_timestep end_timestep s :
  0 < end_timestep → end_timestep <= inject_Z (s - start_timestep) →
  ramp start_timestep end_timestep s * max_value == max_value.
Proof.
  intros Hend Hs. unfold ramp. rewrite np_clip_high; [apply Qmult_1_l |].
  apply Qle_shift_div_l; [done |]. by rewrite Qmult_1_l.
Qed.

(** With [start_timestep = 0], as in every call of [train_policy], the
    code and the specification compute the same progress. *)
Lemma progress_start_0 (end_timestep : Q) (s : Z) :
  ramp 0 end_timestep s == spec_progress 0 end_timestep (inject_Z s).
Proof.
  unfold ramp, spec_progress. rewrite Z.sub_0_r.
  assert (inject_Z s / end_timestep == (inject_Z s - 0) / (end_timestep - 0))
    as Heq by (unfold Qminus; by rewrite !Qplus_0_r).
  unfold np_clip. by rewrite Heq.
Qed.

(** With [start_timestep = 0] and a positive integer [end_timestep], as in
    every call of [train_policy], the schedule is the one of the
    specification: defined at every step, non-decreasing, between 0 and
    [max_value], 0 at the start, [max_value] at [end_timestep] and
    beyond. *)
Lemma cur_value_start_0 (max_value : Q) (e : Z) :
  (0 < e)%Z → 0 <= max_value →
  (∀ s, cur_value max_value 0 (inject_Z e) s
        = Ok (ramp 0 (inject_Z e) s * max_value))
  ∧ (∀ s s', (s ≤ s')%Z →
       ramp 0 (inject_Z e) s * max_value <= ramp 0 (inject_Z e) s' * max_value)
  ∧ (∀ s, 0 <= ramp 0 (inject_Z e) s * max_value <= max_value)
  ∧ ramp 0 (inject_Z e) 0 * max_value == 0
  ∧ (∀ s, (e ≤ s)%Z → ramp 0 (inject_Z e) s * max_value == max_value).
Proof.
  intros He Hmax.
  assert (0 < inject_Z e) as Hpos
    by (change 0 with (inject_Z 0); by rewrite <- Zlt_Qlt).
  split_and!.
  - intros s. apply cur_value_defined. intros H0. rewrite H0 in Hpos.
    by apply Qlt_irrefl in Hpos.
  - intros s s' Hs. by apply cur_value_monotone.
  - intros s. by apply cur_value_bounds.
  - apply cur_value_at_start.
  - intros s Hs. apply cur_value_pinned; [done |].
    rewrite <- Zle_Qle. lia.
Qed.

(** C2 (code defect). The code divides by [end_timestep], the
    specification by [end_step - start_step]. With [start_timestep = 1000],
    [end_timestep = 2000] and [num_timesteps = 2000] the code computes the
    progress 1/2, where the formula of the claim gives 1. *)
Theorem progress_divides_by_end_timestep :
  ∃ p, progress 1000 2000 2000 = Ok p
       ∧ p == 1 # 2
       ∧ spec_progress 1000 2000 2000 == 1
       ∧ ¬ p == spec_progress 1000 2000 2000.
Proof. eexists. split; [reflexivity |]. by vm_compute. Qed.

(** C3 (code defect, the same one as C2). With [max_value = 1],
    [start_timestep = 1000] and [end_timestep = 2000] the value computed at
    step 2000, the end step, is 1/2 and not [max_value], and the value at
    step 2500, beyond the end step, is 3/4: it is not pinned at
    [max_value]. *)
Theorem cur_value_not_max_at_end_timestep :
  (∃ v, cur_value 1 1000 2000 2000 = Ok v ∧ v == 1 # 2 ∧ ¬ v == 1)
  ∧ (∃ v, cur_value 1 1000 2000 2500 = Ok v ∧ v == 3 # 4 ∧ ¬ v == 1).
Proof. split; (eexists; split; [reflexivity |]; by vm_compute). Qed.

(** The same three evaluations in binary64: rounding plays no part in
    them. *)
Example curriculum_binary64 :
  Binary64.progress 1000 2000 2000 = Ok 0.5%float
  ∧ Binary64.cur_value 1 1000 2000 2000 = Ok 0.5%float
  ∧ Binary64.cur_value 1 1000 2000 2500 = Ok 0.75%float.
Proof. split_and!; reflexivity. Qed.

(** The scenario of the specification: start 0, end 1e5, maximum 0.1, at
    step 500 the value broadcast is 0.0005. *)
Example cur_value_step_500 :
  ∃ v, cur_value (1 # 10) 0 100000 500 = Ok v ∧ v == 5 # 10000.
Proof. eexists. split; [reflexivity |]. by vm_compute. Qed.

End CurriculumFacts.

(** *** Worker teardown *)

Section SpineFacts.
Import Spine.

(** Closing an environment whose simulator is a child of the process
    (running, or terminated and not yet reaped) performs the four effects
    in order, returns, and leaves the simulator reaped. *)
Lemma close_monkeypatch_live shm_name pid w :
  is_Some (children w !! pid) →
  close_monkeypatch shm_name pid w
  = (Ok (), {| children := delete pid (children w); files := files w;
               trace := trace w ++ close_events shm_name pid |}).
Proof.
  destruct w as [c fs tr]. simpl. intros [st E].
  unfold close_monkeypatch, close_events, OS.kill, OS.waitpid. mrun.
  rewrite E. destruct st; mrun.
  - rewrite lookup_insert_eq, delete_insert_eq, <- !app_assoc. done.
  - rewrite E, <- !app_assoc. done.
Qed.

(** Closing an environment whose simulator is not a child of the process
    any more: [os.kill] is called all the same and raises
    ProcessLookupError; nothing after it runs. *)
Lemma close_monkeypatch_gone shm_name pid w :
  children w !! pid = None →
  close_monkeypatch shm_name pid w
  = (Raise ProcessLookupError,
     {| children := children w; files := files w;
        trace := trace w ++ take 2 (close_events shm_name pid) |}).
Proof.
  destruct w as [c fs tr]. simpl. intros E.
  unfold close_monkeypatch, close_events, OS.kill, OS.waitpid. mrun.
  rewrite E. mrun. by rewrite <- !app_assoc.
Qed.

(** What [_init] does in the trainer process (fork returned a pid). *)
Lemma init_env_parent env_settings seed max_episode_duration show spine_path
    words draw word pid w :
  Words.get_random_word words draw = Ok word → pid ≠ 0%Z →
  init_env env_settings seed max_episode_duration show spine_path words draw
    pid w
  = (Ok (Some {| env_shm_name := "/" +:+ word; env_pid := pid |}),
     {| children := <[pid := Running]> (children w); files := files w;
        trace := trace w ++
          [ EvFork pid;
            EvMakeEnv ("/" +:+ word)
              (Arith.py_int (max_episode_duration
                             * inject_Z (agent_frequency env_settings)));
            EvReset seed ] |}).
Proof.
  intros Hword Hpid. destruct w as [c fs tr].
  unfold init_env, OS.fork. mrun. rewrite Hword.
  destruct (decide (pid = 0%Z)) as [|_]; [done |]. mrun.
  by rewrite <- !app_assoc.
Qed.


(** What it does there when they divide: the simulator is exec'ed. *)
Lemma init_env_child_divisible env_settings seed max_episode_duration show
    spine_path words draw word w :
  Words.get_random_word words draw = Ok word →
  agent_frequency env_settings ≠ 0%Z →
  (spine_frequency env_settings mod agent_frequency env_settings = 0)%Z →
  ∃ argv,
    init_env env_settings seed max_episode_duration show spine_path words draw
      0 w
    = (NoReturn Replaced,
       {| children := ∅; files := files w;
          trace := trace w ++ [EvFork 0; EvExec spine_path (Str "bullet" :: argv)] |})
    ∧ take 2 argv = [Str "--shm-name"; Str ("/" +:+ word)].
Proof.
  intros Hword Hagent Hmod. destruct w as [c fs tr].
  unfold init_env, OS.fork, get_bullet_argv, OS.execvp, Arith.py_mod,
    Arith.py_truediv. mrun.
  rewrite Hword. simpl.
  destruct (decide (agent_frequency env_settings = 0%Z)) as [|_]; [done |].
  rewrite bool_decide_eq_true_2 by done.
  destruct (Qeq_bool (inject_Z (agent_frequency env_settings)) 0) eqn:E.
  { apply Qeq_bool_eq in E. exfalso. apply Hagent.
    unfold Qeq in E. simpl in E. lia. }
  eexists. split; [by rewrite <- !app_assoc | by destruct show].
Qed.

(** C7. Closing an environment made by the factory signals the simulator,
    then waits for it, then calls the original close, in this order; and
    whatever the state of the process table, the effects of a close are an
    initial part of that sequence, so the original close never runs before
    the signal and the wait. *)
Theorem close_signals_waits_then_releases env_settings seed
    max_episode_duration show spine_path words draw fork_ret w e w1 :
  init_env env_settings seed max_episode_duration show spine_path words draw
    fork_ret w = (Ok (Some e), w1) →
  env_close e w1
  = (Ok (),
     {| children := delete (env_pid e) (children w1); files := files w1;
        trace := trace w1 ++
          [ EvLog ("Terminating spine " +:+ env_shm_name e +:+ " with pid="
                   +:+ pretty (env_pid e) +:+ "...");
            EvKill (env_pid e) SIGINT;
            EvWaitpid (env_pid e);
            EvPrepatchClose (env_shm_name e) ] |})
  ∧ ∀ w', ∃ evs,
      trace (env_close e w').2 = trace w' ++ evs
      ∧ evs `prefix_of` close_events (env_shm_name e) (env_pid e).
Proof.
  intros Hinit. split.
  - assert (children w1 !! env_pid e = Some Running) as Hlive.
    { destruct (Words.get_random_word words draw) as [word| |] eqn:Hword.
      - destruct (decide (fork_ret = 0%Z)) as [->|Hpid].
        + destruct w as [c fs tr]. revert Hinit.
          unfold init_env, OS.fork. mrun. rewrite Hword. simpl.
          destruct (get_bullet_argv _ _ _ _) as [[?| |] ?]; simpl;
            unfold OS.execvp; mrun; discriminate.
        + rewrite (init_env_parent _ _ _ _ _ _ _ word) in Hinit by done.
          injection Hinit as <- <-. simpl. apply lookup_insert_eq.
      - destruct w. revert Hinit. unfold init_env. mrun. by rewrite Hword.
      - destruct w. revert Hinit. unfold init_env. mrun. by rewrite Hword. }
    unfold env_close. by rewrite close_monkeypatch_live by eauto.
  - intros w'. unfold env_close.
    destruct (children w' !! env_pid e) eqn:E.
    + rewrite close_monkeypatch_live by eauto. by eexists.
    + rewrite close_monkeypatch_gone by done. eexists. split; [done |].
      by exists [EvWaitpid (env_pid e); EvPrepatchClose (env_shm_name e)].
Qed.

Lemma close_signals_waits_then_releases_witness :
  env_close {| env_shm_name := "/abc"; env_pid := 4242 |}
    {| children := {[ 4242%Z := Running ]}; files := ∅;
       trace := [EvFork 4242; EvMakeEnv "/abc" 6000; EvReset 7] |}
  = (Ok (),
     {| children := delete 4242%Z {[ 4242%Z := Running ]}; files := ∅;
        trace := [ EvFork 4242; EvMakeEnv "/abc" 6000; EvReset 7;
                   EvLog "Terminating spine /abc with pid=4242...";
                   EvKill 4242 SIGINT;
                   EvWaitpid 4242;
                   EvPrepatchClose "/abc" ] |}).
Proof.
  apply (close_signals_waits_then_releases
           {| agent_frequency := 200; spine_frequency := 1000;
              env_id := "UpkieGroundVelocity-v1" |}
           7 30 false "bullet_spine" ["abc"] 0 4242 empty_world).
  vm_compute. reflexivity.
Defined.

(** C8, as stated, fails: after a first close that returned, a second
    close of the same environment raises. *)
Lemma second_close_not_safe :
  ¬ WorkerSpec.second_close_safe "/abc" 4242
      {| children := {[ 4242%Z := Running ]}; files := ∅; trace := [] |}.
Proof.
  unfold WorkerSpec.second_close_safe.
  rewrite close_monkeypatch_live by (simpl; rewrite lookup_singleton_eq; eauto).
  rewrite close_monkeypatch_gone by (simpl; apply lookup_delete_eq).
  simpl. intros H. by destruct (H eq_refl) as [? _].
Qed.

(** C8, amended. A second close after a first one that returned calls
    [os.kill(pid, SIGINT)] again, without any check; the simulator has been
    reaped, so the call raises ProcessLookupError, and neither
    [os.waitpid] nor the original close runs a second time. *)
Theorem second_close_raises shm_name pid w :
  is_Some (children w !! pid) →
  let first := close_monkeypatch shm_name pid w in
  first.1 = Ok ()
  ∧ close_monkeypatch shm_name pid first.2
    = (Raise ProcessLookupError,
       {| children := children first.2; files := files first.2;
          trace := trace first.2 ++
            [ EvLog ("Terminating spine " +:+ shm_name +:+ " with pid="
                     +:+ pretty pid +:+ "...");
              EvKill pid SIGINT ] |}).
Proof.
  intros Hlive. simpl. rewrite close_monkeypatch_live by done.
  split; [done |].
  by rewrite close_monkeypatch_gone by (simpl; apply lookup_delete_eq).
Qed.

Lemma second_close_raises_witness :
  let w := {| children := {[ 4242%Z := Running ]}; files := ∅; trace := [] |} in
  let first := close_monkeypatch "/abc" 4242 w in
  first.1 = Ok ()
  ∧ (close_monkeypatch "/abc" 4242 first.2).1 = Raise ProcessLookupError.
Proof.
  intros w first.
  destruct (second_close_raises "/abc" 4242 w) as [H1 H2].
  - vm_compute. eauto.
  - split; [exact H1 |]. fold first in H2. by rewrite H2.
Defined.



End SpineFacts.

(** *** Per-step callbacks *)

Section CallbackFacts.
Import Callbacks.

Lemma run_steps_S nb_envs steps t cbs w :
  run_steps nb_envs (S steps) t cbs w
  = match on_step_all (t + nb_envs) cbs w with
    | (Ok cbs', w') => run_steps nb_envs steps (t + nb_envs) cbs' w'
    | (Raise e, w') => (Raise e, w')
    | (NoReturn why, w') => (NoReturn why, w')
    end.
Proof. reflexivity. Qed.

(** Stepping a single callback [steps] times while its [_on_step] has no
    effect: only its call counter moves. *)
Lemma run_steps_quiet (nb_envs : Z) (c : callback) (quiet : nat → Prop) :
  (∀ n t w, quiet n →
     _on_step {| cb := c; n_calls := n; num_timesteps := t |} w = (Ok (), w)) →
  ∀ steps s t w,
    cb s = c →
    (∀ k, n_calls s < k ≤ n_calls s + steps → quiet k) →
    ∃ s', run_steps nb_envs steps t [s] w = (Ok [s'], w)
          ∧ cb s' = c ∧ n_calls s' = n_calls s + steps.
Proof.
  intros Hquiet. induction steps as [|steps IH]; intros s t w Hc Hq.
  - exists s. simpl. split_and!; [done | done | lia].
  - destruct (IH {| cb := c; n_calls := n_calls s + 1;
                    num_timesteps := (t + nb_envs)%Z |}
                (t + nb_envs)%Z w eq_refl) as (s' & Hrun & Hc' & Hn').
    { simpl. intros k Hk. apply Hq. lia. }
    exists s'. split_and!; [| done | simpl in Hn'; lia].
    simpl. unfold on_step. mrun. rewrite Hc.
    rewrite Hquiet by (apply Hq; lia). by rewrite Hrun.
Qed.

(** [SummaryWriterCallback._on_step] does nothing unless the counter is 1. *)
Lemma SummaryWriterCallback_quiet save_path n t w :
  n ≠ 1 →
  _on_step {| cb := SummaryWriterCallback save_path; n_calls := n;
              num_timesteps := t |} w = (Ok (), w).
Proof.
  intros Hn. unfold _on_step, SummaryWriterCallback_on_step. simpl.
  by rewrite (proj2 (Nat.eqb_neq n 1) Hn).
Qed.

(** [CheckpointCallback._on_step] does nothing unless the counter is a
    multiple of [save_freq]. *)
Lemma CheckpointCallback_quiet save_freq save_path name_prefix n t w :
  save_freq ≠ 0%Z → (Z.of_nat n mod save_freq ≠ 0)%Z →
  _on_step {| cb := CheckpointCallback save_freq save_path name_prefix;
              n_calls := n; num_timesteps := t |} w = (Ok (), w).
Proof.
  intros Hf Hn. unfold _on_step, CheckpointCallback_on_step, Arith.py_mod.
  simpl. mrun. destruct (decide (save_freq = 0%Z)) as [|_]; [done |].
  by destruct (decide _).
Qed.

End CallbackFacts.

(** *** Checkpoints, the final save and the teardown of the pool *)

Section TrainFacts.
Import Spine Callbacks Train.

(** The interval is not vacuous: with 210 environments it is 1000 calls,
    and the 1000th call saves a checkpoint. *)
Example checkpoint_at_1000 :
  _on_step {| cb := CheckpointCallback (Z.max (210000 `div` 210) 1000)
                      "/tmp/run/policy_x_1" "checkpoint";
              n_calls := 1000; num_timesteps := 210000 |} empty_world
  = (Ok (),
     {| children := ∅;
        files := {[ "/tmp/run/policy_x_1/checkpoint_210000_steps.zip" ]};
        trace := [EvPolicySave "/tmp/run/policy_x_1/checkpoint_210000_steps.zip"] |}).
Proof. vm_compute. reflexivity. Qed.

Lemma vec_env_close_cons e vec_env w :
  vec_env_close (e :: vec_env) w
  = match close_monkeypatch (env_shm_name e) (env_pid e) w with
    | (Ok _, w') => vec_env_close vec_env w'
    | (Raise ex, w') => (Raise ex, w')
    | (NoReturn why, w') => (NoReturn why, w')
    end.
Proof. reflexivity. Qed.

(** Closing a pool only appends teardown effects to the trace, leaves the
    files alone, and never raises KeyboardInterrupt. *)
Lemma vec_env_close_appends (vec_env : list env) :
  ∀ w, ∃ teardown,
    trace (vec_env_close vec_env w).2 = trace w ++ teardown
    ∧ files (vec_env_close vec_env w).2 = files w
    ∧ Forall is_teardown_event teardown
    ∧ (vec_env_close vec_env w).1 ≠ Raise KeyboardInterrupt.
Proof.
  induction vec_env as [|e vec_env IH]; intros w.
  - exists []. simpl. by rewrite app_nil_r.
  - rewrite vec_env_close_cons.
    destruct (children w !! env_pid e) eqn:E.
    + rewrite close_monkeypatch_live by eauto. cbv beta iota.
      destruct (IH {| children := delete (env_pid e) (children w);
                      files := files w;
                      trace := trace w ++ close_events (env_shm_name e) (env_pid e) |})
        as (td & Htr & Hfs & Htd & Hr).
      exists (close_events (env_shm_name e) (env_pid e) ++ td).
      rewrite Htr, Hfs. cbn [trace files].
      split_and!; [by rewrite <- app_assoc | done | | done].
      apply Forall_app. split; [| done]. by repeat constructor.
    + rewrite close_monkeypatch_gone by done.
      exists (take 2 (close_events (env_shm_name e) (env_pid e))).
      cbn [trace files fst snd].
      split_and!; [done | done | by repeat constructor | done].
Qed.

(** A close never adds a child to the process table. *)
Lemma close_monkeypatch_children shm_name pid w pid' :
  children w !! pid' = None →
  children (close_monkeypatch shm_name pid w).2 !! pid' = None.
Proof.
  intros Hnone. destruct (children w !! pid) eqn:E.
  - rewrite close_monkeypatch_live by eauto. simpl.
    destruct (decide (pid = pid')) as [->|Hne];
      [apply lookup_delete_eq | by rewrite lookup_delete_ne].
  - by rewrite close_monkeypatch_gone.
Qed.

Lemma vec_env_close_children (vec_env : list env) :
  ∀ w pid', children w !! pid' = None →
            children (vec_env_close vec_env w).2 !! pid' = None.
Proof.
  induction vec_env as [|e vec_env IH]; intros w pid' Hnone; [done |].
  rewrite vec_env_close_cons.
  pose proof (close_monkeypatch_children (env_shm_name e) (env_pid e) w pid' Hnone)
    as Hc.
  destruct (close_monkeypatch (env_shm_name e) (env_pid e) w) as [[[]| |] w'];
    simpl in *; [by apply IH | done | done].
Qed.

(** Closing a live pool tears every member down, in order, and returns. *)
Lemma vec_env_close_live (vec_env : list env) :
  ∀ w, pool_live vec_env w →
    (vec_env_close vec_env w).1 = Ok ()
    ∧ trace (vec_env_close vec_env w).2 = trace w ++ pool_events vec_env
    ∧ ∀ e, e ∈ vec_env → children (vec_env_close vec_env w).2 !! env_pid e = None.
Proof.
  induction vec_env as [|e vec_env IH]; intros w [Hnd Hlive].
  - simpl. split_and!; [done | by rewrite app_nil_r | by intros e ?%elem_of_nil].
  - rewrite vec_env_close_cons.
    rewrite close_monkeypatch_live by (apply Hlive; left). cbv beta iota.
    rewrite fmap_cons in Hnd. apply NoDup_cons in Hnd as [Hnotin Hnd].
    destruct (IH {| children := delete (env_pid e) (children w);
                    files := files w;
                    trace := trace w ++ close_events (env_shm_name e) (env_pid e) |})
      as (Hr & Htr & Hgone).
    { split; [done |]. intros e' He'. simpl.
      rewrite lookup_delete_ne; [apply Hlive; by right |].
      intros Heq. apply Hnotin. rewrite Heq. by apply list_elem_of_fmap_2. }
    split_and!; [done | by rewrite Htr; cbn [trace]; rewrite <- app_assoc |].
    intros e' [->|He']%elem_of_cons; [| by apply Hgone].
    pose proof (vec_env_close_children vec_env
                {| children := delete (env_pid e) (children w);
                   files := files w;
                   trace := trace w ++ close_events (env_shm_name e) (env_pid e) |}
                (env_pid e)) as Hsub.
    cbn [children] in Hsub. apply Hsub, lookup_delete_eq.
Qed.

Lemma policy_save_run path w :
  policy_save path w
  = (Ok (), {| children := children w; files := {[ path ]} ∪ files w;
               trace := trace w ++ [EvPolicySave path] |}).
Proof. reflexivity. Qed.

(** The end of [train_policy] when [policy.learn] returned or was
    interrupted: the world after the [try] statement is saved to, then the
    pool is closed. *)
Lemma learn_and_save_run (policy_learn : list callback → M ())
    save_path nb_envs max_init_rand vec_env w :
  let learned :=
    (callbacks ← train_callbacks save_path nb_envs max_init_rand;
     policy_learn callbacks) w in
  learned.1 = Ok () ∨ learned.1 = Raise KeyboardInterrupt →
  learn_and_save policy_learn save_path nb_envs max_init_rand vec_env w
  = vec_env_close vec_env
      {| children := children learned.2;
         files := {[ save_path +:+ "/final.zip" ]} ∪ files learned.2;
         trace := trace learned.2
                  ++ (if interrupted learned.1
                      then [EvLog "Training interrupted."] else [])
                  ++ [EvPolicySave (save_path +:+ "/final.zip")] |}.
Proof.
  intros learned Hend. unfold learn_and_save.
  change ((try_except
             (callbacks ← train_callbacks save_path nb_envs max_init_rand;
              policy_learn callbacks)
             KeyboardInterrupt (logging_info "Training interrupted.");;
           policy_save (save_path +:+ "/final.zip");; vec_env_close vec_env) w)
    with (match try_except
                  (callbacks ← train_callbacks save_path nb_envs max_init_rand;
                   policy_learn callbacks)
                  KeyboardInterrupt (logging_info "Training interrupted.") w with
          | (Ok _, w') =>
              match policy_save (save_path +:+ "/final.zip") w' with
              | (Ok _, w'') => vec_env_close vec_env w''
              | (Raise ex, w'') => (Raise ex, w'')
              | (NoReturn why, w'') => (NoReturn why, w'')
              end
          | (Raise ex, w') => (Raise ex, w')
          | (NoReturn why, w') => (NoReturn why, w')
          end).
  unfold try_except. fold learned.
  destruct learned as [r w1]. simpl in Hend. destruct Hend as [-> | ->].
  - cbv beta iota. rewrite policy_save_run. cbv beta iota.
    cbn [fst snd interrupted]. by rewrite app_nil_l.
  - cbv beta iota. rewrite decide_True by done.
    unfold logging_info, emit. rewrite policy_save_run. cbv beta iota.
    cbn [children files trace fst snd interrupted].
    by rewrite <- app_assoc.
Qed.

(** C1. When the training loop returns or is interrupted by
    KeyboardInterrupt, the interrupt is caught (and logged), the policy is
    saved to the [final] artifact, and only then is the pool closed: every
    teardown effect comes after the save in the trace, the artifact exists
    at the end, and KeyboardInterrupt does not leave [train_policy]. With a
    live pool the run returns normally and every member is torn down. *)
Theorem final_save_then_close (policy_learn : list callback → M ())
    (save_path : string) (nb_envs : Z) (max_init_rand : InitRandomization)
    (vec_env : list env) (w : world) :
  let learned :=
    (callbacks ← train_callbacks save_path nb_envs max_init_rand;
     policy_learn callbacks) w in
  let run :=
    learn_and_save policy_learn save_path nb_envs max_init_rand vec_env w in
  learned.1 = Ok () ∨ learned.1 = Raise KeyboardInterrupt →
  ∃ teardown,
    trace run.2
    = trace learned.2
      ++ (if interrupted learned.1
          then [EvLog "Training interrupted."] else [])
      ++ [EvPolicySave (save_path +:+ "/final.zip")]
      ++ teardown
    ∧ Forall is_teardown_event teardown
    ∧ (save_path +:+ "/final.zip") ∈ files run.2
    ∧ run.1 ≠ Raise KeyboardInterrupt
    ∧ (pool_live vec_env learned.2 →
       run.1 = Ok () ∧ teardown = pool_events vec_env).
Proof.
  intros learned run Hend. unfold run.
  rewrite learn_and_save_run by done. fold learned.
  set (saved := {| children := children learned.2;
                   files := {[ save_path +:+ "/final.zip" ]} ∪ files learned.2;
                   trace := _ |}).
  destruct (vec_env_close_appends vec_env saved) as (td & Htr & Hfs & Htd & Hr).
  exists td. split_and!.
  - rewrite Htr. unfold saved. cbn [trace]. by rewrite <- !app_assoc.
  - done.
  - rewrite Hfs. unfold saved. cbn [files].
    apply elem_of_union. left. by apply elem_of_singleton.
  - done.
  - intros Hlive.
    destruct (vec_env_close_live vec_env saved) as (Hok & Htr' & _);
      [done |].
    split; [done |]. apply (app_inv_head (trace saved)). by rewrite <- Htr.
Qed.

Lemma final_save_then_close_witness :
  let vec_env := [ {| env_shm_name := "/abc"; env_pid := 4242 |} ] in
  let w := {| children := {[ 4242%Z := Running ]}; files := ∅; trace := [] |} in
  let max_init_rand := {| pitch := 1 # 10; v_x := 1 # 10; omega_y := 1 # 10 |} in
  let run :=
    learn_and_save (sb3_learn 1 3 (Some 1)) "/tmp/run/policy_x_1" 1
      max_init_rand vec_env w in
  run.1 = Ok ()
  ∧ "/tmp/run/policy_x_1/final.zip" ∈ files run.2
  ∧ ∃ learned_trace,
      trace run.2
      = learned_trace
        ++ [ EvLog "Training interrupted.";
             EvPolicySave "/tmp/run/policy_x_1/final.zip";
             EvLog "Terminating spine /abc with pid=4242...";
             EvKill 4242 SIGINT;
             EvWaitpid 4242;
             EvPrepatchClose "/abc" ].
Proof.
  intros vec_env w max_init_rand run.
  destruct (final_save_then_close (sb3_learn 1 3 (Some 1)) "/tmp/run/policy_x_1"
              1 max_init_rand vec_env w)
    as (td & Htr & _ & Hfile & _ & Hlive).
  - right. vm_compute. reflexivity.
  - destruct Hlive as [Hok ->].
    + split; [vm_compute; apply NoDup_cons; split;
                [apply not_elem_of_nil | apply NoDup_nil_2] |].
      intros e ->%list_elem_of_singleton. vm_compute. eauto.
    + split_and!; [exact Hok | exact Hfile |].
      eexists. fold run in Htr. rewrite Htr.
      reflexivity.
Defined.

(** A whole run, for illustration: one environment, three steps asked for,
    interrupted after the second. *)
Example interrupted_run_trace :
  let run :=
    learn_and_save (sb3_learn 1 3 (Some 2)) "/r/p_1" 1
      {| pitch := 1 # 10; v_x := 2 # 10; omega_y := 3 # 10 |}
      [ {| env_shm_name := "/abc"; env_pid := 4242 |} ]
      {| children := {[ 4242%Z := Running ]}; files := ∅; trace := [] |} in
  run.1 = Ok ()
  ∧ trace run.2
    = [ EvAddText "config"; EvWriteFile "/r/p_1/config.yaml";
        EvLog "Saved configuration to /r/p_1/config.yaml";
        EvEnvMethod "update_init_rand" "pitch" (1 # 1000000);
        EvRecord "init_rand/pitch" (1 # 1000000);
        EvEnvMethod "update_init_rand" "v_x" (2 # 1000000);
        EvRecord "init_rand/v_x" (2 # 1000000);
        EvEnvMethod "update_init_rand" "omega_y" (3 # 1000000);
        EvRecord "init_rand/omega_y" (3 # 1000000);
        EvEnvMethod "update_init_rand" "pitch" (2 # 1000000);
        EvRecord "init_rand/pitch" (2 # 1000000);
        EvEnvMethod "update_init_rand" "v_x" (4 # 1000000);
        EvRecord "init_rand/v_x" (4 # 1000000);
        EvEnvMethod "update_init_rand" "omega_y" (6 # 1000000);
        EvRecord "init_rand/omega_y" (6 # 1000000);
        EvLog "Training interrupted."; EvPolicySave "/r/p_1/final.zip";
        EvLog "Terminating spine /abc with pid=4242...";
        EvKill 4242 SIGINT; EvWaitpid 4242; EvPrepatchClose "/abc" ]
  ∧ elements (files run.2) = ["/r/p_1/config.yaml"; "/r/p_1/final.zip"].
Proof. vm_compute. done. Qed.

(** The whole of [train_policy] on two environments, with a run name drawn
    from the dictionary, an existing first candidate path, and a training
    loop that runs its single step: the run returns, and the trace reads
    name, spawns, first step, final save, teardown. *)
Example train_policy_run :
  let run :=
    train_policy (sb3_learn 2 1 None)
      {| agent_frequency := 200; spine_frequency := 1000;
         env_id := "UpkieGroundVelocity-v1" |}
      "bullet_spine" ["it's"; "upkie"; "wheel"] 0
      (λ i, {| spawn_seed := 7; spawn_draw := 1 + i;
               spawn_fork_ret := 100 + Z.of_nat i |})
      "" "/r" 2 false {| pitch := 1 # 10; v_x := 2 # 10; omega_y := 3 # 10 |} 30
      {| children := ∅; files := {[ "/r/upkie_1" ]}; trace := [] |} in
  run.1 = Ok ()
  ∧ trace run.2
    = [ EvLog "New policy name is upkie";
        EvLog "Training data will be logged to /r/upkie_2";
        EvFork 100; EvMakeEnv "/upkie" 6000; EvReset 7;
        EvFork 101; EvMakeEnv "/wheel" 6000; EvReset 7;
        EvAddText "config"; EvWriteFile "/r/upkie_2/config.yaml";
        EvLog "Saved configuration to /r/upkie_2/config.yaml";
        EvEnvMethod "update_init_rand" "pitch" (2 # 1000000);
        EvRecord "init_rand/pitch" (2 # 1000000);
        EvEnvMethod "update_init_rand" "v_x" (4 # 1000000);
        EvRecord "init_rand/v_x" (4 # 1000000);
        EvEnvMethod "update_init_rand" "omega_y" (6 # 1000000);
        EvRecord "init_rand/omega_y" (6 # 1000000);
        EvPolicySave "/r/upkie_2/final.zip";
        EvLog "Terminating spine /upkie with pid=100...";
        EvKill 100 SIGINT; EvWaitpid 100; EvPrepatchClose "/upkie";
        EvLog "Terminating spine /wheel with pid=101...";
        EvKill 101 SIGINT; EvWaitpid 101; EvPrepatchClose "/wheel" ]
  ∧ children run.2 = ∅.
Proof. vm_compute. done. Qed.


End TrainFacts.

(** *** The callbacks of train_policy, stepped together *)

Section RunFacts.
Import Spine Callbacks Train.

Lemma on_step_all_train save_path save_freq p v o n t0 t w :
  save_freq ≠ 0%Z →
  ∃ w', on_step_all t (callback_states save_path save_freq p v o n t0) w
        = (Ok (callback_states save_path save_freq p v o (n + 1) t), w')
        ∧ trace w' = trace w ++ step_events save_path save_freq p v o (n + 1) t.
Proof.
  intros Hf. destruct w as [c fs tr].
  unfold callback_states, step_events. simpl.
  unfold on_step, _on_step. simpl.
  unfold CheckpointCallback_on_step, SummaryWriterCallback_on_step,
    InitRandomizationCallback_on_step, cur_value, progress, Arith.py_truediv,
    Arith.py_mod. simpl.
  destruct (decide (save_freq = 0%Z)) as [|_]; [done |].
  mrun. unfold result_bind, result_ret. simpl.
  destruct (decide (Z.of_nat (n + 1) mod save_freq = 0)%Z);
    destruct (n + 1 =? 1)%nat; simpl; mrun; simpl;
    (eexists; split; [reflexivity |]); simpl;
    rewrite <- ?app_assoc; reflexivity.
Qed.

Lemma run_steps_train save_path save_freq p v o nb_envs :
  save_freq ≠ 0%Z →
  ∀ steps n t0 t w,
    ∃ t' w', run_steps nb_envs steps t
               (callback_states save_path save_freq p v o n t0) w
             = (Ok (callback_states save_path save_freq p v o (n + steps) t'), w')
             ∧ trace w' = trace w
                 ++ run_events save_path save_freq p v o nb_envs steps n t.
Proof.
  intros Hf. induction steps as [|steps IH]; intros n t0 t w.
  - exists t0, w. simpl. by rewrite Nat.add_0_r, app_nil_r.
  - rewrite run_steps_S.
    destruct (on_step_all_train save_path save_freq p v o n t0 (t + nb_envs) w Hf)
      as (w1 & -> & Htr1).
    destruct (IH (n + 1) (t + nb_envs)%Z (t + nb_envs)%Z w1)
      as (t' & w' & -> & Htr).
    exists t', w'. split; [by replace (n + S steps) with (n + 1 + steps) by lia |].
    rewrite Htr, Htr1. simpl. by rewrite <- app_assoc.
Qed.

Lemma step_events_config_write save_path save_freq p v o n t :
  List.filter is_config_write (step_events save_path save_freq p v o n t)
  = if (n =? 1)%nat then [EvWriteFile (save_path +:+ "/config.yaml")] else [].
Proof.
  unfold step_events. rewrite !List.filter_app.
  destruct (decide _); destruct (n =? 1)%nat; reflexivity.
Qed.

Lemma step_events_policy_save save_path save_freq p v o n t :
  (Z.of_nat n mod save_freq ≠ 0)%Z →
  List.filter is_policy_save (step_events save_path save_freq p v o n t) = [].
Proof.
  intros Hn. unfold step_events. rewrite !List.filter_app.
  destruct (decide _); [done |]. destruct (n =? 1)%nat; reflexivity.
Qed.

Lemma run_events_config_write_later save_path save_freq p v o nb_envs :
  ∀ steps n t, 1 ≤ n →
    List.filter is_config_write
      (run_events save_path save_freq p v o nb_envs steps n t) = [].
Proof.
  induction steps as [|steps IH]; intros n t Hn; [done |].
  simpl. rewrite List.filter_app, step_events_config_write, IH by lia.
  by rewrite (proj2 (Nat.eqb_neq (n + 1) 1)) by lia.
Qed.

Lemma run_events_policy_save save_path save_freq p v o nb_envs :
  ∀ steps n t, (Z.of_nat (n + steps) < save_freq)%Z →
    List.filter is_policy_save
      (run_events save_path save_freq p v o nb_envs steps n t) = [].
Proof.
  induction steps as [|steps IH]; intros n t Hn; [done |].
  simpl. rewrite List.filter_app, IH by lia.
  rewrite step_events_policy_save; [done |].
  rewrite Z.mod_small; lia.
Qed.

(** A training loop of [T >= 1] steps over the callbacks of [train_policy],
    with [nb_envs >= 1] environments and no interrupt: the loop returns, the
    configuration file is written exactly once, and no checkpoint is saved
    while [T] is below the checkpoint interval. *)
Theorem train_loop_config_once_no_checkpoint (save_path : string) (nb_envs : Z)
    (max_init_rand : InitRandomization) (T : nat) (w : world) :
  (1 ≤ nb_envs)%Z → 1 ≤ T →
  let loop :=
    (callbacks ← train_callbacks save_path nb_envs max_init_rand;
     sb3_learn nb_envs T None callbacks) w in
  ∃ evs,
    loop.1 = Ok ()
    ∧ trace loop.2 = trace w ++ evs
    ∧ List.filter is_config_write evs = [EvWriteFile (save_path +:+ "/config.yaml")]
    ∧ ((Z.of_nat T < Z.max (210000 `div` nb_envs) 1000)%Z →
       List.filter is_policy_save evs = []).
Proof.
  intros Hnb HT loop.
  set (f := Z.max (210000 `div` nb_envs) 1000).
  assert (f ≠ 0%Z) as Hf by (unfold f; lia).
  destruct (run_steps_train save_path f (pitch max_init_rand) (v_x max_init_rand)
              (omega_y max_init_rand) nb_envs Hf T 0 0%Z 0%Z w)
    as (t' & w' & Hrun & Htr).
  exists (run_events save_path f (pitch max_init_rand) (v_x max_init_rand)
            (omega_y max_init_rand) nb_envs T 0 0).
  assert (loop = (Ok (), w')) as ->.
  { unfold loop, train_callbacks, Arith.py_floordiv, sb3_learn.
    destruct w as [c fs tr]. mrun.
    destruct (decide (nb_envs = 0%Z)) as [|_]; [lia |]. cbv beta iota.
    change (new_callback <$> _)
      with (callback_states save_path f (pitch max_init_rand)
              (v_x max_init_rand) (omega_y max_init_rand) 0 0).
    by rewrite Hrun. }
  split_and!; [done | done | |].
  - destruct T as [|T]; [lia |]. simpl.
    rewrite List.filter_app, step_events_config_write.
    by rewrite run_events_config_write_later by lia.
  - intros HTf. by apply run_events_policy_save.
Qed.

(** C4. Stepped on each of [T >= 1] timesteps, the summary-writer callback
    writes the configuration (to the TensorBoard writer and to
    [config.yaml]) exactly once, during its first call: the world after
    [T] steps of the callback is the world after its first step;
    [_on_step] has no effect whenever the call counter, which is 1 at the
    first call, is not 1; and the whole training loop over the callbacks of
    [train_policy] writes [config.yaml] exactly once. *)
Theorem config_snapshot_written_once (nb_envs : Z) (save_path : string)
    (max_init_rand : InitRandomization) (T : nat) (w : world) :
  (1 ≤ nb_envs)%Z → 1 ≤ T →
  let w1 := {| children := children w;
               files := {[ save_path +:+ "/config.yaml" ]} ∪ files w;
               trace := trace w ++
                 [ EvAddText "config";
                   EvWriteFile (save_path +:+ "/config.yaml");
                   EvLog ("Saved configuration to " +:+ save_path
                          +:+ "/config.yaml") ] |} in
  let loop :=
    (callbacks ← train_callbacks save_path nb_envs max_init_rand;
     sb3_learn nb_envs T None callbacks) w in
  (∃ s, run_steps nb_envs 1 0 [new_callback (SummaryWriterCallback save_path)] w
        = (Ok [s], w1) ∧ n_calls s = 1)
  ∧ (∃ s, run_steps nb_envs T 0 [new_callback (SummaryWriterCallback save_path)] w
          = (Ok [s], w1) ∧ n_calls s = T)
  ∧ (∀ self w', n_calls self ≠ 1 →
       SummaryWriterCallback_on_step self save_path w' = (Ok (), w'))
  ∧ (∃ evs, loop.1 = Ok ()
            ∧ trace loop.2 = trace w ++ evs
            ∧ List.filter is_config_write evs
              = [EvWriteFile (save_path +:+ "/config.yaml")]).
Proof.
  intros Hnb HT w1 loop.
  assert (on_step_all nb_envs [new_callback (SummaryWriterCallback save_path)] w
          = (Ok [{| cb := SummaryWriterCallback save_path; n_calls := 1;
                    num_timesteps := nb_envs |}], w1)) as Hfirst.
  { destruct w as [c fs tr]. unfold w1. simpl.
    unfold on_step, _on_step, SummaryWriterCallback_on_step. simpl. mrun.
    by rewrite <- !app_assoc. }
  split_and!.
  - eexists. rewrite run_steps_S, Z.add_0_l, Hfirst. done.
  - destruct T as [|T]; [lia |].
    destruct (run_steps_quiet nb_envs (SummaryWriterCallback save_path)
                (λ n, n ≠ 1)
                (λ n t w0 Hn, SummaryWriterCallback_quiet save_path n t w0 Hn)
                T {| cb := SummaryWriterCallback save_path; n_calls := 1;
                     num_timesteps := nb_envs |} nb_envs w1 eq_refl)
      as (s & Hrun & _ & Hn).
    { simpl. lia. }
    exists s. split; [| simpl in Hn; lia].
    rewrite run_steps_S, Z.add_0_l, Hfirst. exact Hrun.
  - intros self w' Hn. unfold SummaryWriterCallback_on_step.
    by rewrite (proj2 (Nat.eqb_neq _ 1) Hn).
  - destruct (train_loop_config_once_no_checkpoint save_path nb_envs
                max_init_rand T w Hnb HT) as (evs & Hok & Htr & Hcfg & _).
    by exists evs.
Qed.

Lemma config_snapshot_written_once_witness :
  ∃ s, run_steps 1 3 0 [new_callback (SummaryWriterCallback "/tmp/run/policy_x_1")]
         empty_world
       = (Ok [s],
          {| children := ∅;
             files := {[ "/tmp/run/policy_x_1/config.yaml" ]} ∪ ∅;
             trace := [ EvAddText "config";
                        EvWriteFile "/tmp/run/policy_x_1/config.yaml";
                        EvLog "Saved configuration to /tmp/run/policy_x_1/config.yaml" ] |})
       ∧ n_calls s = 3.
Proof.
  apply (config_snapshot_written_once 1 "/tmp/run/policy_x_1"
           {| pitch := 1 # 10; v_x := 1 # 10; omega_y := 1 # 10 |} 3 empty_world);
    lia.
Defined.

(** C9. For [nb_envs >= 1] the checkpoint callback is built with
    [save_freq = max(210000 // nb_envs, 1000)], a value between 1000 and
    210000; with one environment it is 210000, and then no step of a run of
    at most 1000 steps saves a checkpoint: stepping the callback leaves the
    world as it was, and the whole training loop over the callbacks of
    [train_policy] saves nothing. *)
Theorem checkpoint_interval (nb_envs : Z) (save_path : string)
    (max_init_rand : InitRandomization) (w : world) :
  (1 ≤ nb_envs)%Z →
  (∃ rest,
     train_callbacks save_path nb_envs max_init_rand w
     = (Ok (CheckpointCallback (Z.max (210000 `div` nb_envs) 1000) save_path
              "checkpoint" :: rest), w))
  ∧ (1000 ≤ Z.max (210000 `div` nb_envs) 1000 ≤ 210000)%Z
  ∧ (nb_envs = 1%Z →
     Z.max (210000 `div` nb_envs) 1000 = 210000%Z
     ∧ ∀ T, 1 ≤ T ≤ 1000 →
         (∃ s, run_steps nb_envs T 0
                 [new_callback (CheckpointCallback 210000 save_path "checkpoint")]
                 w = (Ok [s], w)
               ∧ n_calls s = T)
         ∧ ∃ evs,
             ((callbacks ← train_callbacks save_path nb_envs max_init_rand;
               sb3_learn nb_envs T None callbacks) w).1 = Ok ()
             ∧ trace ((callbacks ← train_callbacks save_path nb_envs max_init_rand;
                       sb3_learn nb_envs T None callbacks) w).2 = trace w ++ evs
             ∧ List.filter is_policy_save evs = []).
Proof.
  intros Hnb. split_and!.
  - unfold train_callbacks, Arith.py_floordiv. mrun.
    destruct (decide (nb_envs = 0%Z)) as [|_]; [lia |]. by eexists.
  - lia.
  - assert (210000 `div` nb_envs ≤ 210000)%Z; [| lia].
    apply Z.div_le_upper_bound; lia.
  - intros ->. split; [done |]. intros T HT. split.
    + assert (∀ n t w0, 1 ≤ n ≤ 1000 →
                _on_step {| cb := CheckpointCallback 210000 save_path "checkpoint";
                            n_calls := n; num_timesteps := t |} w0 = (Ok (), w0))
        as Hquiet.
      { intros n t w0 Hn. apply CheckpointCallback_quiet; [done |].
        rewrite Z.mod_small; lia. }
      destruct (run_steps_quiet 1 (CheckpointCallback 210000 save_path "checkpoint")
                  (λ n, 1 ≤ n ≤ 1000) Hquiet
                  T (new_callback (CheckpointCallback 210000 save_path "checkpoint"))
                  0%Z w eq_refl)
        as (s & Hrun & _ & Hn); [simpl; lia |].
      by exists s.
    + destruct (train_loop_config_once_no_checkpoint save_path 1
                  max_init_rand T w Hnb ltac:(lia)) as (evs & Hok & Htr & _ & Hsave).
      exists evs. split_and!; [done | done |]. apply Hsave.
      change (Z.max (210000 `div` 1) 1000) with 210000%Z. lia.
Qed.

Lemma checkpoint_interval_witness :
  ∃ s, run_steps 1 1000 0
         [new_callback (CheckpointCallback 210000 "/tmp/run/policy_x_1" "checkpoint")]
         empty_world = (Ok [s], empty_world)
       ∧ n_calls s = 1000.
Proof.
  apply (checkpoint_interval 1 "/tmp/run/policy_x_1"
           {| pitch := 1 # 10; v_x := 1 # 10; omega_y := 1 # 10 |} empty_world);
    [lia | reflexivity | lia].
Defined.

End RunFacts.

(** ** Part III: further properties of the script *)

(** *** get_random_word, find_save_path *)

Section MoreWordsFacts.
Import Words SavePath.






(** X3. Two successive runs never get the same output path: once the path
    returned by [find_save_path] exists, the next call returns a later
    candidate. *)
Theorem find_save_path_successive (fs : gset string)
    (training_dir policy_name : string) :
  ∃ n m,
    find_save_path fs training_dir policy_name
    = Ok (path_for_iter training_dir policy_name n)
    ∧ find_save_path ({[ path_for_iter training_dir policy_name n ]} ∪ fs)
        training_dir policy_name
      = Ok (path_for_iter training_dir policy_name m)
    ∧ 1 ≤ n < m.
Proof.
  destruct (find_save_path_total fs training_dir policy_name)
    as (n & Hn & Hfirst & Hfree & Hused).
  destruct (find_save_path_total
              ({[ path_for_iter training_dir policy_name n ]} ∪ fs)
              training_dir policy_name)
    as (m & Hm & Hsecond & Hfree' & Hused').
  exists n, m. split_and!; [done | done | done |].
  destruct (decide (m < n)) as [Hlt | Hge].
  - exfalso. apply Hfree'. apply elem_of_union. right. apply Hused. lia.
  - destruct (decide (m = n)) as [-> | Hne]; [| lia].
    exfalso. apply Hfree'. apply elem_of_union. left. by apply elem_of_singleton.
Qed.

End MoreWordsFacts.

(** *** The curriculum, as the code computes it *)

Section MoreCurriculumFacts.
Import Arith Callbacks.
Local Open Scope Q_scope.

(** X4. For a positive [end_timestep] and a non-negative [max_value] the
    value that [_on_step] computes is defined at every step, never
    decreases as the step count grows, and stays between 0 and
    [max_value]. *)
Theorem cur_value_monotone_bounded (max_value : Q) (start_timestep : Z)
    (end_timestep : Q) (s s' : Z) :
  0 < end_timestep → 0 <= max_value → (s ≤ s')%Z →
  ∃ v v', cur_value max_value start_timestep end_timestep s = Ok v
          ∧ cur_value max_value start_timestep end_timestep s' = Ok v'
          ∧ 0 <= v ∧ v <= v' ∧ v' <= max_value.
Proof.
  intros Hend Hmax Hs.
  assert (¬ end_timestep == 0) as Hne.
  { intros H0. rewrite H0 in Hend. by apply Qlt_irrefl in Hend. }
  do 2 eexists. rewrite !cur_value_defined by done.
  split_and!; [reflexivity | reflexivity | | |].
  - by apply cur_value_bounds.
  - by apply cur_value_monotone.
  - by apply cur_value_bounds.
Qed.

Lemma cur_value_monotone_bounded_witness :
  ∃ v v', cur_value (1 # 10) 0 100000 500 = Ok v
          ∧ cur_value (1 # 10) 0 100000 70000 = Ok v'
          ∧ 0 <= v ∧ v <= v' ∧ v' <= 1 # 10.
Proof.
  apply (cur_value_monotone_bounded (1 # 10) 0 100000 500 70000);
    [reflexivity | discriminate | lia].
Defined.

(** X5. For a positive [end_timestep] the ramp that [_on_step] computes
    runs from [start_timestep] to [start_timestep + end_timestep]: the
    value is 0 up to [start_timestep], grows linearly as
    [(num_timesteps - start_timestep) / end_timestep * max_value] in
    between, and is [max_value] from [start_timestep + end_timestep] on. *)
Theorem cur_value_piecewise (max_value : Q) (start_timestep : Z)
    (end_timestep : Q) (s : Z) :
  0 < end_timestep →
  ∃ v, cur_value max_value start_timestep end_timestep s = Ok v
       ∧ ((s ≤ start_timestep)%Z → v == 0)
       ∧ ((start_timestep ≤ s)%Z →
          inject_Z (s - start_timestep) <= end_timestep →
          v == inject_Z (s - start_timestep) / end_timestep * max_value)
       ∧ (end_timestep <= inject_Z (s - start_timestep) → v == max_value).
Proof.
  intros Hend.
  assert (¬ end_timestep == 0) as Hne.
  { intros H0. rewrite H0 in Hend. by apply Qlt_irrefl in Hend. }
  eexists. rewrite cur_value_defined by done. split; [reflexivity |].
  assert (0 <= / end_timestep) as Hinv
    by (apply Qinv_le_0_compat; by apply Qlt_le_weak).
  split_and!.
  - intros Hs. unfold ramp. rewrite np_clip_low; [apply Qmult_0_l |].
    unfold Qdiv.
    assert (inject_Z (s - start_timestep) <= 0) as Hle
      by (change 0 with (inject_Z 0); rewrite <- Zle_Qle; lia).
    rewrite <- (Qmult_0_l (/ end_timestep)). by apply Qmult_le_compat_r.
  - intros Hs Hle. unfold ramp.
    set (x := inject_Z (s - start_timestep) / end_timestep).
    assert (0 <= x) as Hx0.
    { unfold x, Qdiv. apply Qmult_le_0_compat; [| done].
      change 0 with (inject_Z 0). rewrite <- Zle_Qle. lia. }
    assert (x <= 1) as Hx1.
    { unfold x. apply Qle_shift_div_r; [done |]. by rewrite Qmult_1_l. }
    assert (np_clip x 0 1 == x) as ->; [| reflexivity].
    unfold np_clip.
    destruct (Q.max_spec_le x 0) as [[? ?]|[? ?]];
      destruct (Q.min_spec_le (Qmax x 0) 1) as [[? ?]|[? ?]]; lra.
  - intros Hs. by apply cur_value_pinned.
Qed.

Lemma cur_value_piecewise_witness :
  ∃ v, cur_value 1 1000 2000 3000 = Ok v ∧ v == 1.
Proof.
  destruct (cur_value_piecewise 1 1000 2000 3000) as (v & Hv & _ & _ & Hmax);
    [reflexivity |].
  exists v. split; [exact Hv |]. apply Hmax. discriminate.
Defined.

(** X6. With [end_timestep = 0] the division in [_on_step] raises
    ZeroDivisionError before anything is broadcast or recorded: the world
    is left as it was. *)
Theorem InitRandomizationCallback_zero_end (self : callback_state)
    (key : string) (max_value : Q) (start_timestep : Z) (end_timestep : Q)
    (w : world) :
  end_timestep == 0 →
  InitRandomizationCallback_on_step self key max_value start_timestep
    end_timestep w
  = (Raise ZeroDivisionError, w).
Proof.
  intros H0. unfold InitRandomizationCallback_on_step, cur_value.
  rewrite progress_zero_division by done. reflexivity.
Qed.

Lemma InitRandomizationCallback_zero_end_witness :
  InitRandomizationCallback_on_step
    {| cb := InitRandomizationCallback "pitch" 1 0 0; n_calls := 1;
       num_timesteps := 1 |} "pitch" 1 0 0 empty_world
  = (Raise ZeroDivisionError, empty_world).
Proof.
  apply (InitRandomizationCallback_zero_end _ "pitch" 1 0 0 empty_world).
  reflexivity.
Defined.

End MoreCurriculumFacts.

(** *** Simulator workers *)

Section MoreSpineFacts.
Import Spine.

(** [get_bullet_argv] when the frequencies divide. *)
Lemma get_bullet_argv_run (env_settings : EnvSettings) (shm_name : string)
    (show : bool) :
  agent_frequency env_settings ≠ 0%Z →
  (spine_frequency env_settings mod agent_frequency env_settings = 0)%Z →
  ∃ nb_substeps, ∀ w,
    get_bullet_argv env_settings shm_name show w
    = (Ok ([ Str "--shm-name"; Str shm_name;
             Str "--nb-substeps"; StrOfFloat nb_substeps;
             Str "--spine-frequency";
             StrOfInt (spine_frequency env_settings) ]
           ++ (if show then [Str "--show"] else [])), w).
Proof.
  intros Hagent Hmod.
  exists (inject_Z (spine_frequency env_settings)
          / inject_Z (agent_frequency env_settings))%Q.
  intros [c fs tr].
  unfold get_bullet_argv, Arith.py_mod, Arith.py_truediv. mrun.
  rewrite decide_False by done. cbv beta iota.
  rewrite bool_decide_eq_true_2 by done.
  destruct (Qeq_bool (inject_Z (agent_frequency env_settings)) 0) eqn:E.
  { apply Qeq_bool_eq in E. exfalso. apply Hagent.
    unfold Qeq in E. simpl in E. lia. }
  by destruct show.
Qed.

(** X7. [get_bullet_argv] has no effect on the world and three outcomes.
    With [agent_frequency = 0] the [%] raises ZeroDivisionError; with a
    spine frequency that is not a multiple of the agent frequency the
    assertion fails; otherwise it returns --shm-name, --nb-substeps and
    --spine-frequency with their values, followed by --show exactly when
    [show] is set, and the number of substeps, though computed by a float
    division, is the whole number [spine_frequency // agent_frequency]. *)
Theorem get_bullet_argv_outcomes (env_settings : EnvSettings)
    (shm_name : string) (show : bool) (w : world) :
  (agent_frequency env_settings = 0%Z →
   get_bullet_argv env_settings shm_name show w = (Raise ZeroDivisionError, w))
  ∧ (agent_frequency env_settings ≠ 0%Z →
     (spine_frequency env_settings mod agent_frequency env_settings ≠ 0)%Z →
     get_bullet_argv env_settings shm_name show w = (Raise AssertionError, w))
  ∧ (agent_frequency env_settings ≠ 0%Z →
     (spine_frequency env_settings mod agent_frequency env_settings = 0)%Z →
     ∃ nb_substeps,
       get_bullet_argv env_settings shm_name show w
       = (Ok ([ Str "--shm-name"; Str shm_name;
                Str "--nb-substeps"; StrOfFloat nb_substeps;
                Str "--spine-frequency";
                StrOfInt (spine_frequency env_settings) ]
              ++ (if show then [Str "--show"] else [])), w)
       ∧ (nb_substeps
          == inject_Z (spine_frequency env_settings
                       `div` agent_frequency env_settings))%Q).
Proof.
  destruct w as [c fs tr]. split_and!.
  - intros H0. unfold get_bullet_argv, Arith.py_mod. mrun.
    by rewrite decide_True by done.
  - intros Hagent Hmod. unfold get_bullet_argv, Arith.py_mod. mrun.
    rewrite decide_False by done. cbv beta iota.
    by rewrite bool_decide_eq_false_2.
  - intros Hagent Hmod.
    unfold get_bullet_argv, Arith.py_mod, Arith.py_truediv. mrun.
    rewrite decide_False by done. cbv beta iota.
    rewrite bool_decide_eq_true_2 by done.
    destruct (Qeq_bool (inject_Z (agent_frequency env_settings)) 0) eqn:E.
    { apply Qeq_bool_eq in E. exfalso. apply Hagent.
      unfold Qeq in E. simpl in E. lia. }
    eexists. split; [by destruct show |].
    apply Z.div_exact in Hmod; [| done].
    set (a := agent_frequency env_settings) in *.
    set (s := spine_frequency env_settings) in *.
    apply Qeq_bool_neq in E.
    rewrite Hmod at 1. rewrite inject_Z_mult. field. exact E.
Qed.

Lemma get_bullet_argv_outcomes_witness :
  ∃ nb_substeps,
    get_bullet_argv {| agent_frequency := 200; spine_frequency := 1000;
                       env_id := "UpkieGroundVelocity-v1" |}
      "/abc" true empty_world
    = (Ok [ Str "--shm-name"; Str "/abc";
            Str "--nb-substeps"; StrOfFloat nb_substeps;
            Str "--spine-frequency"; StrOfInt 1000; Str "--show" ],
       empty_world)
    ∧ (nb_substeps == 5)%Q.
Proof.
  apply (get_bullet_argv_outcomes
           {| agent_frequency := 200; spine_frequency := 1000;
              env_id := "UpkieGroundVelocity-v1" |} "/abc" true empty_world);
    [simpl; lia | reflexivity].
Defined.

(** X8. In the forked child, when the frequencies divide, [_init] replaces
    the process by the simulator: it calls [os.execvp] on [spine_path] with
    the program name bullet followed by the arguments of [get_bullet_argv]
    for the channel named after the drawn word, never returns to Python and
    builds no environment. *)
Theorem init_env_child_execs (env_settings : EnvSettings) (seed : Z)
    (max_episode_duration : Q) (show : bool) (spine_path : string)
    (words : list string) (draw : nat) (word : string) (w : world) :
  Words.get_random_word words draw = Ok word →
  agent_frequency env_settings ≠ 0%Z →
  (spine_frequency env_settings mod agent_frequency env_settings = 0)%Z →
  ∃ nb_substeps,
    init_env env_settings seed max_episode_duration show spine_path words draw
      0 w
    = (NoReturn Replaced,
       {| children := ∅; files := files w;
          trace := trace w ++
            [ EvFork 0;
              EvExec spine_path
                ([ Str "bullet"; Str "--shm-name"; Str ("/" +:+ word);
                   Str "--nb-substeps"; StrOfFloat nb_substeps;
                   Str "--spine-frequency";
                   StrOfInt (spine_frequency env_settings) ]
                 ++ (if show then [Str "--show"] else [])) ] |}).
Proof.
  intros Hword Hagent Hmod.
  destruct (get_bullet_argv_run env_settings ("/" +:+ word) show)
    as (q & Hargv); [done | done |].
  exists q. destruct w as [c fs tr]. unfold init_env, OS.fork. mrun.
  rewrite Hword. cbv beta iota. rewrite decide_True by done.
  rewrite decide_True by done. rewrite Hargv.
  unfold OS.execvp. mrun. by rewrite <- !app_assoc.
Qed.

Lemma init_env_child_execs_witness :
  ∃ nb_substeps,
    init_env {| agent_frequency := 200; spine_frequency := 1000;
                env_id := "UpkieGroundVelocity-v1" |}
      7 30 false "bullet_spine" ["abc"] 0 0 empty_world
    = (NoReturn Replaced,
       {| children := ∅; files := ∅;
          trace := [] ++
            [ EvFork 0;
              EvExec "bullet_spine"
                ([ Str "bullet"; Str "--shm-name"; Str "/abc";
                   Str "--nb-substeps"; StrOfFloat nb_substeps;
                   Str "--spine-frequency"; StrOfInt 1000 ] ++ []) ] |}).
Proof.
  apply (init_env_child_execs
           {| agent_frequency := 200; spine_frequency := 1000;
              env_id := "UpkieGroundVelocity-v1" |}
           7 30 false "bullet_spine" ["abc"] 0 "abc" empty_world);
    [reflexivity | simpl; lia | reflexivity].
Defined.

(** X9. When [get_random_word] does not return a word (it raises, as with
    an out-of-range draw, or loops forever, as with no alphanumeric word),
    [_init] ends the same way before it calls [os.fork]: no process is
    spawned and the world is left as it was, in the trainer and in the
    child alike. *)
Theorem init_env_no_word_no_fork (env_settings : EnvSettings) (seed : Z)
    (max_episode_duration : Q) (show : bool) (spine_path : string)
    (words : list string) (draw : nat) (fork_ret : Z) (w : world) :
  (∀ e, Words.get_random_word words draw = Raise e →
        init_env env_settings seed max_episode_duration show spine_path words
          draw fork_ret w = (Raise e, w))
  ∧ (∀ why, Words.get_random_word words draw = NoReturn why →
            init_env env_settings seed max_episode_duration show spine_path
              words draw fork_ret w = (NoReturn why, w)).
Proof.
  destruct w as [c fs tr].
  split; intros x Hw; unfold init_env; mrun; by rewrite Hw.
Qed.

Lemma init_env_no_word_no_fork_witness :
  init_env {| agent_frequency := 200; spine_frequency := 1000;
              env_id := "UpkieGroundVelocity-v1" |}
    7 30 false "bullet_spine" ["abc"; "def"] 2 4242 empty_world
  = (Raise IndexError, empty_world).
Proof.
  apply (init_env_no_word_no_fork
           {| agent_frequency := 200; spine_frequency := 1000;
              env_id := "UpkieGroundVelocity-v1" |}
           7 30 false "bullet_spine" ["abc"; "def"] 2 4242 empty_world).
  reflexivity.
Defined.

Lemma close_monkeypatch_other (shm_name : string) (pid : Z) (w : world) :
  ∀ pid', pid' ≠ pid →
    children (close_monkeypatch shm_name pid w).2 !! pid' = children w !! pid'.
Proof.
  intros pid' Hne. destruct (children w !! pid) eqn:E.
  - rewrite close_monkeypatch_live by eauto. cbn [snd children].
    by rewrite lookup_delete_ne.
  - by rewrite close_monkeypatch_gone.
Qed.

(** X10. Closing an environment touches only its own simulator: whatever
    the outcome, every other entry of the process table and every file is
    left as it was, and the trace only grows. *)
Theorem close_monkeypatch_frame (shm_name : string) (pid : Z) (w : world) :
  (∀ pid', pid' ≠ pid →
     children (close_monkeypatch shm_name pid w).2 !! pid' = children w !! pid')
  ∧ files (close_monkeypatch shm_name pid w).2 = files w
  ∧ trace w `prefix_of` trace (close_monkeypatch shm_name pid w).2.
Proof.
  split; [apply close_monkeypatch_other |].
  destruct (children w !! pid) eqn:E.
  - rewrite close_monkeypatch_live by eauto. cbn [snd children files trace].
    split; [done | by eexists].
  - rewrite close_monkeypatch_gone by done. cbn [snd children files trace].
    split; [done | by eexists].
Qed.

Lemma close_monkeypatch_frame_witness :
  let w := {| children := {[ 100%Z := Running; 101%Z := Running ]};
              files := {[ "/r/p_1/config.yaml" ]}; trace := [] |} in
  children (close_monkeypatch "/abc" 100 w).2 !! 101%Z = Some Running
  ∧ files (close_monkeypatch "/abc" 100 w).2 = {[ "/r/p_1/config.yaml" ]}.
Proof.
  intros w.
  destruct (close_monkeypatch_frame "/abc" 100 w) as (Hother & Hfiles & _).
  split; [| exact Hfiles].
  rewrite (Hother 101%Z) by lia. reflexivity.
Defined.

End MoreSpineFacts.

(** *** The pool and the whole run *)

Section MoreTrainFacts.
Import Spine Callbacks Train Pool.

Lemma make_vec_env_cons (fn : M (option env)) env_fns w :
  make_vec_env (fn :: env_fns) w
  = match fn w with
    | (Ok (Some e), w') =>
        match make_vec_env env_fns w' with
        | (Ok vec_env, w'') => (Ok (e :: vec_env), w'')
        | (Raise ex, w'') => (Raise ex, w'')
        | (NoReturn why, w'') => (NoReturn why, w'')
        end
    | (Ok None, w') => (Raise ValueError, w')
    | (Raise ex, w') => (Raise ex, w')
    | (NoReturn why, w') => (NoReturn why, w')
    end.
Proof.
  simpl. unfold mbind, M_bind.
  destruct (fn w) as [[[e|]| |] w']; reflexivity.
Qed.

Lemma lookup_forked (pids : list Z) :
  ∀ c pid, forked pids c !! pid
           = if decide (pid ∈ pids) then Some Running else c !! pid.
Proof.
  unfold forked.
  induction pids as [|q pids IH]; intros c pid; cbn [foldl].
  - destruct (decide (pid ∈ [])) as [Hin|_]; [| done].
    by apply elem_of_nil in Hin.
  - rewrite IH.
    destruct (decide (pid ∈ pids)) as [Hin|Hnin];
      destruct (decide (pid ∈ q :: pids)) as [Hin'|Hnin']; try done.
    + exfalso. apply Hnin'. by right.
    + apply elem_of_cons in Hin' as [->|Hin']; [| done].
      apply lookup_insert_eq.
    + apply lookup_insert_ne. intros ->. apply Hnin'. left.
Qed.

(** The pool that the trainer builds from factories with good inputs. *)
Lemma make_vec_env_trainer (env_settings : EnvSettings)
    (max_episode_duration : Q) (show : bool) (spine_path : string)
    (words : list string) (spawns : nat → spawn) :
  ∀ idxs w,
    Forall (λ i, spawn_ok words (spawns i)) idxs →
    make_vec_env
      ((λ i, init_env env_settings (spawn_seed (spawns i)) max_episode_duration
               show spine_path words (spawn_draw (spawns i))
               (spawn_fork_ret (spawns i))) <$> idxs) w
    = (Ok ((λ i, spawned_env words (spawns i)) <$> idxs),
       {| children := forked ((λ i, spawn_fork_ret (spawns i)) <$> idxs)
                        (children w);
          files := files w;
          trace := trace w ++
            (i ← idxs;
             spawn_events env_settings max_episode_duration words (spawns i)) |}).
Proof.
  induction idxs as [|i idxs IH]; intros w Hok.
  - destruct w. simpl. unfold mret, M_ret. by rewrite app_nil_r.
  - apply Forall_cons in Hok as [[[word Hword] Hpid] Hok].
    rewrite fmap_cons, make_vec_env_cons.
    rewrite (init_env_parent _ _ _ _ _ _ _ word) by done.
    cbv beta iota. rewrite IH by done. cbv beta iota.
    cbn [children files trace]. rewrite !fmap_cons.
    assert (spawned_env words (spawns i)
            = {| env_shm_name := "/" +:+ word;
                 env_pid := spawn_fork_ret (spawns i) |}) as ->
      by (unfold spawned_env, drawn_word; by rewrite Hword).
    assert (spawn_events env_settings max_episode_duration words (spawns i)
            = [ EvFork (spawn_fork_ret (spawns i));
                EvMakeEnv ("/" +:+ word)
                  (Arith.py_int (max_episode_duration
                                 * inject_Z (agent_frequency env_settings)));
                EvReset (spawn_seed (spawns i)) ]) as Hev
      by (unfold spawn_events, drawn_word; by rewrite Hword).
    rewrite bind_cons, Hev. unfold forked. cbn [foldl].
    by rewrite <- app_assoc.
Qed.

Lemma vec_env_close_other (vec_env : list env) :
  ∀ w pid', pid' ∉ env_pid <$> vec_env →
    children (vec_env_close vec_env w).2 !! pid' = children w !! pid'.
Proof.
  induction vec_env as [|e vec_env IH]; intros w pid' Hnin; [done |].
  rewrite fmap_cons in Hnin. apply not_elem_of_cons in Hnin as [Hne Hnin].
  rewrite vec_env_close_cons.
  pose proof (close_monkeypatch_other (env_shm_name e) (env_pid e) w pid' Hne)
    as Hc.
  destruct (close_monkeypatch (env_shm_name e) (env_pid e) w) as [[[]| |] w'];
    cbn [snd] in *; [| done | done].
  by rewrite IH.
Qed.

(** X11. Building a pool and closing it at once is a round trip on the
    process table: with factories whose draws give words and whose forks
    return distinct pids that were not children before, every environment
    is built with its simulator running, the close returns normally, and
    the process table and the files are what they were before the pool was
    built. *)
Theorem pool_spawn_close_round_trip (env_settings : EnvSettings)
    (max_episode_duration : Q) (show : bool) (spine_path : string)
    (words : list string) (spawns : nat → spawn) (idxs : list nat) (w : world) :
  Forall (λ i, spawn_ok words (spawns i)) idxs →
  NoDup ((λ i, spawn_fork_ret (spawns i)) <$> idxs) →
  (∀ i, i ∈ idxs → children w !! spawn_fork_ret (spawns i) = None) →
  let built :=
    make_vec_env
      ((λ i, init_env env_settings (spawn_seed (spawns i)) max_episode_duration
               show spine_path words (spawn_draw (spawns i))
               (spawn_fork_ret (spawns i))) <$> idxs) w in
  ∃ vec_env,
    built.1 = Ok vec_env
    ∧ length vec_env = length idxs
    ∧ (∀ e, e ∈ vec_env → children built.2 !! env_pid e = Some Running)
    ∧ (vec_env_close vec_env built.2).1 = Ok ()
    ∧ children (vec_env_close vec_env built.2).2 = children w
    ∧ files (vec_env_close vec_env built.2).2 = files w.
Proof.
  intros Hok Hnd Hfresh built. unfold built.
  rewrite make_vec_env_trainer by done. cbn [fst snd].
  set (vec_env := (λ i, spawned_env words (spawns i)) <$> idxs).
  set (w1 := {| children := _; files := files w; trace := _ |}).
  assert (env_pid <$> vec_env = (λ i, spawn_fork_ret (spawns i)) <$> idxs)
    as Hpids.
  { unfold vec_env. rewrite <- list_fmap_compose. by apply list_fmap_ext. }
  assert (∀ e, e ∈ vec_env → children w1 !! env_pid e = Some Running) as Hrun.
  { intros e He. unfold w1. cbn [children]. rewrite lookup_forked.
    rewrite decide_True; [done |]. rewrite <- Hpids.
    by apply list_elem_of_fmap_2. }
  assert (pool_live vec_env w1) as Hlive.
  { split; [by rewrite Hpids |]. intros e He. rewrite Hrun by done. eauto. }
  destruct (vec_env_close_live vec_env w1 Hlive) as (Hclosed & _ & Hgone).
  destruct (vec_env_close_appends vec_env w1) as (td & _ & Hfiles & _ & _).
  exists vec_env. split_and!; [done | | done | done | | by rewrite Hfiles].
  - unfold vec_env. by rewrite length_fmap.
  - apply map_eq. intros pid.
    destruct (decide (pid ∈ env_pid <$> vec_env)) as [Hin | Hnin].
    + apply list_elem_of_fmap in Hin as (e & -> & He).
      rewrite Hgone by done. symmetry.
      assert (env_pid e ∈ (λ i, spawn_fork_ret (spawns i)) <$> idxs) as Hin'
        by (rewrite <- Hpids; by apply list_elem_of_fmap_2).
      apply list_elem_of_fmap in Hin' as (i & -> & Hi). by apply Hfresh.
    + rewrite vec_env_close_other by done. unfold w1. cbn [children].
      rewrite lookup_forked. by rewrite decide_False by (by rewrite <- Hpids).
Qed.

Lemma pool_spawn_close_round_trip_witness :
  let spawns := λ i, {| spawn_seed := 7; spawn_draw := i;
                        spawn_fork_ret := 100 + Z.of_nat i |} in
  let built :=
    make_vec_env
      ((λ i, init_env {| agent_frequency := 200; spine_frequency := 1000;
                         env_id := "UpkieGroundVelocity-v1" |}
               (spawn_seed (spawns i)) 30 false "bullet_spine"
               ["upkie"; "wheel"] (spawn_draw (spawns i))
               (spawn_fork_ret (spawns i))) <$> [0; 1]) empty_world in
  ∃ vec_env,
    built.1 = Ok vec_env
    ∧ length vec_env = 2
    ∧ (vec_env_close vec_env built.2).1 = Ok ()
    ∧ children (vec_env_close vec_env built.2).2 = ∅.
Proof.
  intros spawns built.
  destruct (pool_spawn_close_round_trip
              {| agent_frequency := 200; spine_frequency := 1000;
                 env_id := "UpkieGroundVelocity-v1" |}
              30 false "bullet_spine" ["upkie"; "wheel"] spawns [0; 1]
              empty_world)
    as (vec_env & Hb & Hlen & _ & Hc & Hch & _).
  - repeat constructor; try (by eexists); simpl; lia.
  - simpl. repeat constructor; rewrite ?elem_of_cons, ?elem_of_nil; simpl; lia.
  - intros i _. reflexivity.
  - exists vec_env. split_and!; [exact Hb | exact Hlen | exact Hc | exact Hch].
Defined.

(** X12. Only KeyboardInterrupt is caught around [policy.learn]: when the
    training loop raises any other exception, or never returns, then
    despite the comment that the policy is saved no matter what, nothing is
    saved and the pool is not closed; the run ends as the loop did, in the
    world the loop left. *)
Theorem learn_and_save_other_exception (policy_learn : list callback → M ())
    (save_path : string) (nb_envs : Z) (max_init_rand : InitRandomization)
    (vec_env : list env) (w : world) :
  let learned :=
    (callbacks ← train_callbacks save_path nb_envs max_init_rand;
     policy_learn callbacks) w in
  (∀ e, e ≠ KeyboardInterrupt → learned.1 = Raise e →
        learn_and_save policy_learn save_path nb_envs max_init_rand vec_env w
        = (Raise e, learned.2))
  ∧ (∀ why, learned.1 = NoReturn why →
            learn_and_save policy_learn save_path nb_envs max_init_rand vec_env w
            = (NoReturn why, learned.2)).
Proof.
  intros learned.
  assert (learn_and_save policy_learn save_path nb_envs max_init_rand vec_env w
          = match try_except
                    (callbacks ← train_callbacks save_path nb_envs max_init_rand;
                     policy_learn callbacks)
                    KeyboardInterrupt (logging_info "Training interrupted.") w with
            | (Ok _, w') =>
                match policy_save (save_path +:+ "/final.zip") w' with
                | (Ok _, w'') => vec_env_close vec_env w''
                | (Raise ex, w'') => (Raise ex, w'')
                | (NoReturn why, w'') => (NoReturn why, w'')
                end
            | (Raise ex, w') => (Raise ex, w')
            | (NoReturn why, w') => (NoReturn why, w')
            end) as -> by reflexivity.
  unfold try_except. fold learned. destruct learned as [r w1]. cbn [fst snd].
  split.
  - intros e Hne ->. cbv beta iota. by rewrite decide_False by done.
  - by intros why ->.
Qed.

Lemma learn_and_save_other_exception_witness :
  learn_and_save (λ _, raise ValueError) "/r/p_1" 1
    {| pitch := 1 # 10; v_x := 1 # 10; omega_y := 1 # 10 |}
    [ {| env_shm_name := "/abc"; env_pid := 4242 |} ]
    {| children := {[ 4242%Z := Running ]}; files := ∅; trace := [] |}
  = (Raise ValueError,
     {| children := {[ 4242%Z := Running ]}; files := ∅; trace := [] |}).
Proof.
  apply (learn_and_save_other_exception (λ _, raise ValueError) "/r/p_1" 1
           {| pitch := 1 # 10; v_x := 1 # 10; omega_y := 1 # 10 |}
           [ {| env_shm_name := "/abc"; env_pid := 4242 |} ]
           {| children := {[ 4242%Z := Running ]}; files := ∅; trace := [] |});
    [discriminate | reflexivity].
Defined.

(** The run name and the output path, when a name can be had. *)
Lemma resolve_save_path_run (policy_name training_dir : string)
    (words : list string) (name_draw : nat) (w : world) :
  name_ok words name_draw policy_name →
  ∃ n, 1 ≤ n
       ∧ (SavePath.path_for_iter training_dir
            (run_name words name_draw policy_name) n ∉ files w)
       ∧ (∀ k, 1 ≤ k < n →
            SavePath.path_for_iter training_dir
              (run_name words name_draw policy_name) k ∈ files w)
       ∧ resolve_save_path policy_name training_dir words name_draw w
         = (Ok (run_name words name_draw policy_name,
                SavePath.path_for_iter training_dir
                  (run_name words name_draw policy_name) n),
            {| children := children w; files := files w;
               trace := trace w ++
                 [ EvLog ("New policy name is "
                          +:+ run_name words name_draw policy_name);
                   EvLog ("Training data will be logged to "
                          +:+ SavePath.path_for_iter training_dir
                                (run_name words name_draw policy_name) n) ] |}).
Proof.
  intros Hname.
  destruct (find_save_path_total (files w) training_dir
              (run_name words name_draw policy_name))
    as (n & Hn & Hfind & Hfree & Hused).
  exists n. split_and!; [done | done | done |].
  destruct w as [c fs tr]. cbn [files] in Hfind.
  unfold resolve_save_path, run_name, drawn_word in *.
  destruct (decide (policy_name = "")) as [Hempty | Hgiven].
  - destruct (Hname Hempty) as [word Hword]. rewrite Hword in *.
    mrun. rewrite Hfind. cbv beta iota. by rewrite <- app_assoc.
  - mrun. rewrite Hfind. cbv beta iota. by rewrite <- app_assoc.
Qed.

(** [train_policy] up to the training loop, when a name can be had and
    the factories have good inputs. *)
Lemma train_policy_to_loop (policy_learn : list callback → M ())
    (env_settings : EnvSettings) (spine_path : string) (words : list string)
    (name_draw : nat) (spawns : nat → spawn) (policy_name training_dir : string)
    (nb_envs : Z) (show : bool) (init_rand : InitRandomization)
    (max_episode_duration : Q) (w : world) :
  name_ok words name_draw policy_name →
  Forall (λ i, spawn_ok words (spawns i)) (env_indices nb_envs) →
  ∃ n, 1 ≤ n
       ∧ (SavePath.path_for_iter training_dir
            (run_name words name_draw policy_name) n ∉ files w)
       ∧ (∀ k, 1 ≤ k < n →
            SavePath.path_for_iter training_dir
              (run_name words name_draw policy_name) k ∈ files w)
       ∧ train_policy policy_learn env_settings spine_path words name_draw
           spawns policy_name training_dir nb_envs show init_rand
           max_episode_duration w
         = learn_and_save policy_learn
             (SavePath.path_for_iter training_dir
                (run_name words name_draw policy_name) n)
             nb_envs init_rand
             ((λ i, spawned_env words (spawns i)) <$> env_indices nb_envs)
             {| children :=
                  forked ((λ i, spawn_fork_ret (spawns i)) <$> env_indices nb_envs)
                    (children w);
                files := files w;
                trace := trace w ++
                  [ EvLog ("New policy name is "
                           +:+ run_name words name_draw policy_name);
                    EvLog ("Training data will be logged to "
                           +:+ SavePath.path_for_iter training_dir
                                 (run_name words name_draw policy_name) n) ]
                  ++ (i ← env_indices nb_envs;
                      spawn_events env_settings max_episode_duration words
                        (spawns i)) |}.
Proof.
  intros Hname Hok.
  destruct (resolve_save_path_run policy_name training_dir words name_draw w
              Hname) as (n & Hn & Hfree & Hused & Hres).
  exists n. split_and!; [done | done | done |].
  unfold train_policy.
  change ((resolve_save_path policy_name training_dir words name_draw ≫= ?k) w)
    with (match resolve_save_path policy_name training_dir words name_draw w with
          | (Ok names, w') => k names w'
          | (Raise ex, w') => (Raise ex, w')
          | (NoReturn why, w') => (NoReturn why, w')
          end).
  rewrite Hres. cbv beta iota zeta. cbn [snd].
  assert ((if decide (1 < nb_envs)%Z
           then (λ i, init_env env_settings (spawn_seed (spawns i))
                        max_episode_duration show spine_path words
                        (spawn_draw (spawns i)) (spawn_fork_ret (spawns i)))
                <$> seq 0 (Z.to_nat nb_envs)
           else [init_env env_settings (spawn_seed (spawns 0))
                   max_episode_duration show spine_path words
                   (spawn_draw (spawns 0)) (spawn_fork_ret (spawns 0))])
          = (λ i, init_env env_settings (spawn_seed (spawns i))
                    max_episode_duration show spine_path words
                    (spawn_draw (spawns i)) (spawn_fork_ret (spawns i)))
            <$> env_indices nb_envs) as ->
    by (unfold env_indices; by destruct (decide (1 < nb_envs)%Z)).
  change ((make_vec_env ?fns ≫= ?k) ?w0)
    with (match make_vec_env fns w0 with
          | (Ok v, w') => k v w'
          | (Raise ex, w') => (Raise ex, w')
          | (NoReturn why, w') => (NoReturn why, w')
          end).
  rewrite make_vec_env_trainer by done. cbv beta iota.
  cbn [children files trace]. by rewrite <- app_assoc.
Qed.

Lemma learn_and_save_zero_envs (policy_learn : list callback → M ())
    (save_path : string) (max_init_rand : InitRandomization)
    (vec_env : list env) (w : world) :
  learn_and_save policy_learn save_path 0 max_init_rand vec_env w
  = (Raise ZeroDivisionError, w).
Proof. by destruct w. Qed.

(** X13. With [nb_envs = 0] a run still builds one environment, and so
    forks one simulator; then [210_000 // nb_envs] raises ZeroDivisionError
    inside the [try] block, which does not catch it: the training loop is
    never entered, nothing is saved, the pool is not closed, and the
    simulator is left running. *)
Theorem train_policy_zero_envs (policy_learn : list callback → M ())
    (env_settings : EnvSettings) (spine_path : string) (words : list string)
    (name_draw : nat) (spawns : nat → spawn) (policy_name training_dir : string)
    (show : bool) (init_rand : InitRandomization) (max_episode_duration : Q)
    (w : world) :
  name_ok words name_draw policy_name →
  spawn_ok words (spawns 0) →
  ∃ n w',
    train_policy policy_learn env_settings spine_path words name_draw spawns
      policy_name training_dir 0 show init_rand max_episode_duration w
    = (Raise ZeroDivisionError, w')
    ∧ children w' !! spawn_fork_ret (spawns 0) = Some Running
    ∧ files w' = files w
    ∧ trace w'
      = trace w
        ++ [ EvLog ("New policy name is "
                    +:+ run_name words name_draw policy_name);
             EvLog ("Training data will be logged to "
                    +:+ SavePath.path_for_iter training_dir
                          (run_name words name_draw policy_name) n) ]
        ++ spawn_events env_settings max_episode_duration words (spawns 0).
Proof.
  intros Hname Hspawn.
  destruct (train_policy_to_loop policy_learn env_settings spine_path words
              name_draw spawns policy_name training_dir 0 show init_rand
              max_episode_duration w Hname)
    as (n & _ & _ & _ & Hrun).
  { change (env_indices 0) with [0]. by apply Forall_singleton. }
  rewrite learn_and_save_zero_envs in Hrun.
  eexists n, _. split; [exact Hrun |]. cbn [children files trace].
  change (env_indices 0) with [0].
  split_and!; [| done |].
  - rewrite lookup_forked. rewrite decide_True; [done |].
    rewrite list_fmap_singleton. apply list_elem_of_here.
  - rewrite bind_cons. change (@mbind list _ _ _ ?f []) with (@nil event).
    by rewrite app_nil_r.
Qed.

Lemma train_policy_zero_envs_witness :
  ∃ n w',
    train_policy (sb3_learn 1 3 None)
      {| agent_frequency := 200; spine_frequency := 1000;
         env_id := "UpkieGroundVelocity-v1" |}
      "bullet_spine" ["upkie"] 0
      (λ i, {| spawn_seed := 7; spawn_draw := 0; spawn_fork_ret := 4242 |})
      "policy_x" "/r" 0 false
      {| pitch := 1 # 10; v_x := 1 # 10; omega_y := 1 # 10 |} 30 empty_world
    = (Raise ZeroDivisionError, w')
    ∧ children w' !! 4242%Z = Some Running
    ∧ files w' = ∅
    ∧ trace w'
      = [] ++ [ EvLog ("New policy name is " +:+ "policy_x");
                EvLog ("Training data will be logged to "
                       +:+ SavePath.path_for_iter "/r" "policy_x" n) ]
        ++ [ EvFork 4242; EvMakeEnv "/upkie" 6000; EvReset 7 ].
Proof.
  apply (train_policy_zero_envs (sb3_learn 1 3 None)
           {| agent_frequency := 200; spine_frequency := 1000;
              env_id := "UpkieGroundVelocity-v1" |}
           "bullet_spine" ["upkie"] 0
           (λ i, {| spawn_seed := 7; spawn_draw := 0; spawn_fork_ret := 4242 |})
           "policy_x" "/r" false
           {| pitch := 1 # 10; v_x := 1 # 10; omega_y := 1 # 10 |} 30
           empty_world).
  - intros Hempty. discriminate Hempty.
  - split; [by eexists | simpl; lia].
Defined.

(** X14. The checkpoint interval keeps the saves about 210000 timesteps
    apart: a step of the pool advances the model by [nb_envs] timesteps,
    and for 1 to 210 environments [nb_envs * save_freq] lies in
    (210000 - nb_envs, 210000]; from 210 environments on the interval is the
    1000-call minimum and the saves are at least 210000 timesteps apart. *)
Theorem checkpoint_spacing (nb_envs : Z) (save_path : string)
    (max_init_rand : InitRandomization) (w : world) :
  (1 ≤ nb_envs)%Z →
  ∃ save_freq rest,
    train_callbacks save_path nb_envs max_init_rand w
    = (Ok (CheckpointCallback save_freq save_path "checkpoint" :: rest), w)
    ∧ ((nb_envs ≤ 210)%Z →
       (210000 - nb_envs < nb_envs * save_freq ≤ 210000)%Z)
    ∧ ((210 ≤ nb_envs)%Z →
       save_freq = 1000%Z ∧ (210000 ≤ nb_envs * save_freq)%Z).
Proof.
  intros Hnb. exists (Z.max (210000 `div` nb_envs) 1000). eexists.
  split.
  { unfold train_callbacks, Arith.py_floordiv. mrun.
    destruct (decide (nb_envs = 0%Z)) as [|_]; [lia |]. reflexivity. }
  split.
  - intros Hle.
    assert (1000 ≤ 210000 `div` nb_envs)%Z
      by (apply Z.div_le_lower_bound; lia).
    rewrite Z.max_l by lia.
    pose proof (Z.div_mod 210000 nb_envs ltac:(lia)).
    pose proof (Z.mod_pos_bound 210000 nb_envs ltac:(lia)). lia.
  - intros Hge.
    assert (210000 `div` nb_envs ≤ 1000)%Z
      by (apply Z.div_le_upper_bound; lia).
    rewrite Z.max_r by lia. lia.
Qed.

Lemma checkpoint_spacing_witness :
  ∃ save_freq rest,
    train_callbacks "/r/p_1" 4
      {| pitch := 1 # 10; v_x := 1 # 10; omega_y := 1 # 10 |} empty_world
    = (Ok (CheckpointCallback save_freq "/r/p_1" "checkpoint" :: rest),
       empty_world)
    ∧ (210000 - 4 < 4 * save_freq ≤ 210000)%Z.
Proof.
  destruct (checkpoint_spacing 4 "/r/p_1"
              {| pitch := 1 # 10; v_x := 1 # 10; omega_y := 1 # 10 |}
              empty_world) as (f & rest & Hcb & Hlow & _); [lia |].
  exists f, rest. split; [exact Hcb | apply Hlow; lia].
Defined.



End MoreTrainFacts.

(** *** Training start and the entry point *)

Section MainFacts.
Import Spine Callbacks Train Pool TrainingStart Main.

Lemma string_app_assoc (s1 s2 s3 : string) :
  (s1 +:+ s2) +:+ s3 = s1 +:+ (s2 +:+ s3).
Proof.
  induction s1 as [|a s1 IH]; [done |].
  change (String a ((s1 +:+ s2) +:+ s3) = String a (s1 +:+ (s2 +:+ s3))).
  by rewrite IH.
Qed.

(** X15. [_on_training_start] keeps the first TensorBoard format of the
    logger's output formats, whatever comes before or after it, and raises
    StopIteration exactly when the logger has no TensorBoard format. *)
Theorem on_training_start_first_tensorboard (output_formats : list formatter) :
  (∀ f, _on_training_start output_formats = TbFormatter f
        ↔ ∃ before after,
            output_formats = before ++ f :: after
            ∧ is_tensorboard f = true
            ∧ Forall (λ g, is_tensorboard g = false) before)
  ∧ (_on_training_start output_formats = StopIteration
     ↔ Forall (λ g, is_tensorboard g = false) output_formats).
Proof.
  induction output_formats as [|g fs [IHf IHn]]; simpl.
  - split; [| done]. intros f. split; [done |].
    intros ([|? ?] & after & Heq & _); discriminate Heq.
  - destruct (is_tensorboard g) eqn:Hg; split.
    + intros f. split.
      * intros [= <-]. exists [], fs. by split_and!.
      * intros ([|g' before] & after & Heq & Hf & Hbefore).
        -- by injection Heq as -> _.
        -- injection Heq as -> _. apply Forall_cons in Hbefore as [Hg' _].
           congruence.
    + split; [done |]. intros [Hg' _]%Forall_cons. congruence.
    + intros f. rewrite IHf. split.
      * intros (before & after & -> & Hf & Hbefore).
        exists (g :: before), after. split_and!; [done | done |].
        by apply Forall_cons.
      * intros ([|g' before] & after & Heq & Hf & Hbefore).
        -- injection Heq as -> _. congruence.
        -- injection Heq as -> ->. apply Forall_cons in Hbefore as [_ Hbefore].
           by exists before, after.
    + rewrite IHn. split; [by intros; apply Forall_cons |].
      by intros [_ ?]%Forall_cons.
Qed.

Lemma train_loop_body (policy_learn : list callback → M ())
    (save_path : string) (nb_envs : Z) (max_init_rand : InitRandomization)
    (w : world) :
  nb_envs ≠ 0%Z →
  (callbacks ← train_callbacks save_path nb_envs max_init_rand;
   policy_learn callbacks) w
  = policy_learn
      [ CheckpointCallback (Z.max (210000 `div` nb_envs) 1000) save_path
          "checkpoint";
        SummaryWriterCallback save_path;
        InitRandomizationCallback "pitch" (pitch max_init_rand) 0 100000;
        InitRandomizationCallback "v_x" (v_x max_init_rand) 0 100000;
        InitRandomizationCallback "omega_y" (omega_y max_init_rand) 0 100000 ]
      w.
Proof.
  intros Hnb. unfold train_callbacks, Arith.py_floordiv.
  rewrite decide_False by done. reflexivity.
Qed.

(** X16. The run layout: for a run whose training loop returns or is
    interrupted, with at least one environment asked for or a negative
    count, the script saves the final policy to
    {training_path}/{date}/{name}_{n}/final.zip, where [training_path] is
    the value of UPKIE_TRAINING_PATH when that variable is set and the
    temporary directory otherwise, [name] is the name given or the drawn
    word, and [n] is the least number from 1 whose directory did not exist
    when the run started; and KeyboardInterrupt does not leave [main]. *)
Theorem main_final_artifact_path (policy_learn : list callback → M ())
    (env_settings : EnvSettings) (spine_path : string) (words : list string)
    (name_draw : nat) (spawns : nat → spawn) (init_rand : InitRandomization)
    (max_episode_duration : Q) (environ : gmap string string)
    (tempdir date : string) (args : Args) (w : world) :
  name_ok words name_draw (name args) →
  Forall (λ i, spawn_ok words (spawns i)) (env_indices (nb_envs args)) →
  nb_envs args ≠ 0%Z →
  (∀ callbacks w', (policy_learn callbacks w').1 = Ok ()
                   ∨ (policy_learn callbacks w').1 = Raise KeyboardInterrupt) →
  let training_path :=
    match environ !! "UPKIE_TRAINING_PATH" with
    | Some path => path
    | None => tempdir
    end in
  let run_dir (n : nat) :=
    training_path +:+ "/" +:+ date +:+ "/"
    +:+ run_name words name_draw (name args) +:+ "_" +:+ pretty n in
  let run :=
    main policy_learn env_settings spine_path words name_draw spawns init_rand
      max_episode_duration environ tempdir date args w in
  ∃ n, 1 ≤ n
       ∧ (run_dir n ∉ files w)
       ∧ (∀ k, 1 ≤ k < n → run_dir k ∈ files w)
       ∧ (run_dir n +:+ "/final.zip") ∈ files run.2
       ∧ run.1 ≠ Raise KeyboardInterrupt.
Proof.
  intros Hname Hspawn Hnb Hlearn training_path run_dir run.
  set (training_dir := training_path +:+ "/" +:+ date).
  set (w0 := {| children := children w; files := files w;
                trace := trace w ++
                  [ EvLog ("Logging training data in " +:+ training_dir);
                    EvLog ("To track in TensorBoard, run `tensorboard --logdir "
                           +:+ training_dir +:+ "`") ] |}).
  assert (run = train_policy policy_learn env_settings spine_path words
                  name_draw spawns (name args) training_dir (nb_envs args)
                  (show args) init_rand max_episode_duration w0) as Hrun.
  { unfold run, main, w0, training_dir, training_path, environ_get.
    destruct w as [c fs tr]. unfold logging_info, emit, mbind, M_bind.
    cbn [children files trace]. by rewrite <- app_assoc. }
  destruct (train_policy_to_loop policy_learn env_settings spine_path words
              name_draw spawns (name args) training_dir (nb_envs args)
              (show args) init_rand max_episode_duration w0 Hname Hspawn)
    as (n & Hn & Hfree & Hused & Hloop).
  assert (∀ k, run_dir k
               = SavePath.path_for_iter training_dir
                   (run_name words name_draw (name args)) k) as Hdir.
  { intros k. unfold run_dir, training_dir, SavePath.path_for_iter.
    by rewrite !string_app_assoc. }
  exists n. rewrite !Hdir.
  split_and!; [done | done | by intros k Hk; rewrite Hdir; apply Hused | |].
  - rewrite Hrun, Hloop. rewrite learn_and_save_run.
    + match goal with
      | |- _ ∈ files (vec_env_close ?v ?saved).2 =>
          destruct (vec_env_close_appends v saved) as (td & _ & -> & _ & _)
      end.
      cbn [files]. apply elem_of_union. left. by apply elem_of_singleton.
    + cbv zeta. rewrite train_loop_body by done. apply Hlearn.
  - rewrite Hrun, Hloop. rewrite learn_and_save_run.
    + match goal with
      | |- (vec_env_close ?v ?saved).1 ≠ _ =>
          destruct (vec_env_close_appends v saved) as (td & _ & _ & _ & Hr)
      end.
      exact Hr.
    + cbv zeta. rewrite train_loop_body by done. apply Hlearn.
Qed.

Lemma main_final_artifact_path_witness :
  let run :=
    main (λ _, raise KeyboardInterrupt)
      {| agent_frequency := 200; spine_frequency := 1000;
         env_id := "UpkieGroundVelocity-v1" |}
      "bullet_spine" ["upkie"] 0
      (λ i, {| spawn_seed := 7; spawn_draw := 0; spawn_fork_ret := 4242 |})
      {| pitch := 1 # 10; v_x := 1 # 10; omega_y := 1 # 10 |} 30
      {[ "UPKIE_TRAINING_PATH" := "/data" ]} "/tmp" "2023-10-05"
      {| name := "policy_x"; nb_envs := 1; show := false |} empty_world in
  ∃ n, 1 ≤ n
       ∧ (("/data" +:+ "/" +:+ "2023-10-05" +:+ "/"
           +:+ run_name ["upkie"] 0 "policy_x" +:+ "_" +:+ pretty n)
          +:+ "/final.zip") ∈ files run.2
       ∧ run.1 ≠ Raise KeyboardInterrupt.
Proof.
  intros run.
  destruct (main_final_artifact_path (λ _, raise KeyboardInterrupt)
              {| agent_frequency := 200; spine_frequency := 1000;
                 env_id := "UpkieGroundVelocity-v1" |}
              "bullet_spine" ["upkie"] 0
              (λ i, {| spawn_seed := 7; spawn_draw := 0; spawn_fork_ret := 4242 |})
              {| pitch := 1 # 10; v_x := 1 # 10; omega_y := 1 # 10 |} 30
              {[ "UPKIE_TRAINING_PATH" := "/data" ]} "/tmp" "2023-10-05"
              {| name := "policy_x"; nb_envs := 1; show := false |} empty_world)
    as (n & Hn & _ & _ & Hfile & Hr).
  - intros Hempty. discriminate Hempty.
  - repeat constructor; [by eexists | simpl; lia].
  - simpl. lia.
  - intros callbacks w'. right. reflexivity.
  - exists n. rewrite lookup_singleton_eq in Hfile.
    split_and!; [exact Hn | exact Hfile | exact Hr].
Defined.

End MainFacts.
